(** * roslibpy [comm.py]: the ROS Bridge protocol engine

    A shallow embedding of [RosBridgeProtocol] and [RosBridgeClientFactory]
    (Python 2, on Twisted and autobahn), and the properties of dispatch,
    correlation and readiness that the specification states about them.

    Python objects are modelled by the values JSON decoding produces plus
    opaque object references; a method is a function in a state-and-exception
    monad over the instance: a raised exception keeps every mutation done
    before it, as in Python.  Calls that leave the module (user callbacks,
    the factory's event emitter, the websocket transport, the logger) are
    recorded in a trace in the order the method issues them. *)

From stdpp Require Import base gmap strings list.

Set Warnings "-register-all".
Open Scope string_scope.
Open Scope list_scope.

(** ** Python values *)

(** What [json.loads] builds ([None], booleans, integers, text, lists,
    objects) and [VObject], any other Python object (a function, a bound
    method, a protocol instance) known by its identity.  JSON reals are
    left out of the model. *)
Inductive value :=
| VNone
| VBool (b : bool)
| VInt (z : Z)
| VStr (s : string)
| VList (l : list value)
| VDict (d : gmap string value)
| VObject (id : N).

(** Truth value testing: [if x:] and [not x]. *)
Definition truthy (v : value) : bool :=
  match v with
  | VNone => false
  | VBool b => b
  | VInt z => negb (z =? 0)%Z
  | VStr s => negb (String.eqb s "")
  | VList l => match l with [] => false | _ :: _ => true end
  | VDict d => negb (size d =? 0)%nat
  | VObject _ => true
  end.

(** [x == False]: Python's [False] is the integer 0. *)
Definition eq_False (v : value) : bool :=
  match v with
  | VBool b => negb b
  | VInt z => (z =? 0)%Z
  | _ => false
  end.

(** Dictionary keys.  A dict identifies keys by [hash] and [==], so [True]
    and [1] are one key; lists and dicts are unhashable. *)
Inductive key :=
| KNone
| KNum (z : Z)
| KStr (s : string)
| KObj (id : N).

Definition hash_key (v : value) : option key :=
  match v with
  | VNone => Some KNone
  | VBool b => Some (KNum (if b then 1 else 0))
  | VInt z => Some (KNum z)
  | VStr s => Some (KStr s)
  | VList _ | VDict _ => None
  | VObject id => Some (KObj id)
  end.

#[global] Instance key_eq_dec : EqDecision key.
Proof. solve_decision. Defined.

Definition key_to_sum (k : key) : unit + Z + string + N :=
  match k with
  | KNone => inl (inl (inl ()))
  | KNum z => inl (inl (inr z))
  | KStr s => inl (inr s)
  | KObj id => inr id
  end.

Definition key_of_sum (x : unit + Z + string + N) : key :=
  match x with
  | inl (inl (inl _)) => KNone
  | inl (inl (inr z)) => KNum z
  | inl (inr s) => KStr s
  | inr id => KObj id
  end.

#[global] Instance key_countable : Countable key.
Proof. apply (inj_countable' key_to_sum key_of_sum). by intros []. Defined.

(** ** Exceptions *)

(** The classes that occur, with their place in Python 2's hierarchy:
    [except StandardError] catches the built-in errors, but neither a class
    derived from [Exception] directly (a bare [Exception], Twisted's
    [AlreadyCalledError]) nor [KeyboardInterrupt]. *)
Inductive exn_class :=
| KeyboardInterrupt
| Exception
| AlreadyCalledError
| StandardError
| AttributeError
| IOError
| KeyError
| NotImplementedError
| TypeError
| ValueError.

Definition is_StandardError (c : exn_class) : bool :=
  match c with
  | KeyboardInterrupt | Exception | AlreadyCalledError => false
  | StandardError | AttributeError | IOError | KeyError
  | NotImplementedError | TypeError | ValueError => true
  end.

(** The argument an exception is raised with; the three formatted messages
    of the module keep the value they interpolate. *)
Inductive exn_arg :=
| Only_one_handler_can_be_registered_per_operation
| No_handler_registered_for_operation (op : value)
| No_handler_registered_for_service_request_ID (request_id : value)
| Add_support_for_binary_messages
| missing_key (k : string)
| unhashable (v : value)
| no_attribute (name : string)
| text (s : string).

Record exn := Exn { exn_type : exn_class; exn_args : exn_arg }.

(** The error names of the specification, as the module raises them. *)
Definition UnsupportedFrameError : exn :=
  Exn NotImplementedError Add_support_for_binary_messages.
Definition UnknownOperationError (op : value) : exn :=
  Exn StandardError (No_handler_registered_for_operation op).
Definition HandlerConflictError : exn :=
  Exn StandardError Only_one_handler_can_be_registered_per_operation.
Definition UnknownRequestIdError (request_id : value) : exn :=
  Exn StandardError (No_handler_registered_for_service_request_ID request_id).

Inductive result (A : Type) :=
| Ok (a : A)
| Raise (e : exn).
Arguments Ok {A} a.
Arguments Raise {A} e.

(** ** Calls that leave the module *)

Inductive event :=
| Call (f arg : value)             (* f(arg) *)
| Emit (fac topic msg : value)     (* fac.emit(topic, msg) *)
| SendMessage (payload : string)   (* self.sendMessage(payload) *)
| LogException (e : exn)           (* LOGGER.exception(..., e) *)
| LogDebug (s : string)            (* LOGGER.debug(...) *)
| SuperConnectionFailed (reason : exn).

Definition returning_None {A} (r : result A) : result () :=
  match r with
  | Ok _ => Ok ()
  | Raise e => Raise e
  end.

(** ** The state-and-exception monad *)

Definition Eff (S A : Type) : Type :=
  S * list event → (S * list event) * result A.

#[global] Instance Eff_ret {S} : MRet (Eff S) :=
  λ A a st, (st, Ok a).

#[global] Instance Eff_bind {S} : MBind (Eff S) :=
  λ A B k m st,
    match m st with
    | (st', Ok a) => k a st'
    | (st', Raise e) => (st', Raise e)
    end.

Definition raise {S A} (e : exn) : Eff S A :=
  λ st, (st, Raise e).

Definition lift {S A} (r : result A) : Eff S A :=
  λ st, (st, r).

Definition gets {S A} (f : S → A) : Eff S A :=
  λ st, (st, Ok (f st.1)).

Definition modify {S} (f : S → S) : Eff S () :=
  λ st, ((f st.1, st.2), Ok ()).

Definition record {S} (ev : event) : Eff S () :=
  λ st, ((st.1, st.2 ++ [ev]), Ok ()).

(** [try: body  except <classes caught>: handler]. *)
Definition try_except {S A} (body : Eff S A) (caught : exn_class → bool)
    (handler : exn → Eff S A) : Eff S A :=
  λ st,
    match body st with
    | (st', Ok a) => (st', Ok a)
    | (st', Raise e) =>
        if caught (exn_type e) then handler e st' else (st', Raise e)
    end.

(** [d[k]] on a message: [KeyError] when the key is absent. *)
Definition getitem {S} (d : gmap string value) (k : string) : Eff S value :=
  match d !! k with
  | Some v => mret v
  | None => raise (Exn KeyError (missing_key k))
  end.

(** Hashing a value that is about to be used as a dict key. *)
Definition hash {S} (v : value) : Eff S key :=
  match hash_key v with
  | Some k => mret k
  | None => raise (Exn TypeError (unhashable v))
  end.

(** ** RosBridgeProtocol

    The methods that only log ([onConnect], [onClose]) are left out;
    [onOpen] is the call [factory.ready(self)], modelled on the factory's
    side as [ready]. *)

(** What [_message_handlers] holds: the two bound methods installed by
    [__init__], or whatever object a caller registered. *)
Inductive handler :=
| self_handle_publish
| self_handle_service_response
| registered (h : value).

Definition handler_truthy (h : handler) : bool :=
  match h with
  | self_handle_publish | self_handle_service_response => true
  | registered v => truthy v
  end.

Record RosBridgeProtocol := {
  factory : value;
  _pending_service_requests : gmap key (value * value);
  _message_handlers : gmap key handler
}.

Definition set_pending (f : gmap key (value * value) → gmap key (value * value))
    (self : RosBridgeProtocol) : RosBridgeProtocol :=
  {| factory := factory self;
     _pending_service_requests := f (_pending_service_requests self);
     _message_handlers := _message_handlers self |}.

Definition set_handlers (f : gmap key handler → gmap key handler)
    (self : RosBridgeProtocol) : RosBridgeProtocol :=
  {| factory := factory self;
     _pending_service_requests := _pending_service_requests self;
     _message_handlers := f (_message_handlers self) |}.

(** The collaborators of the module, none of which it defines: the JSON
    codec, the [Message] and [ServiceRequest] containers of the package,
    the transport of the base class, the factory's event emitter, and the
    objects callers hand in.  A callback or a subscriber runs against the
    live protocol instance and may call back into it, so those two take the
    instance and return it. *)
Class Collaborators := {
  (* json.dumps(dict(m)).encode('utf8') *)
  json_dumps : gmap string value → result string;
  (* json.loads(payload.decode('utf8')) *)
  json_loads : string → result value;
  (* Message(v) *)
  Message : value → result (gmap string value);
  (* ServiceRequest(v) *)
  ServiceRequest : value → result value;
  (* WebSocketClientProtocol.sendMessage: None when the frame was written *)
  sendMessage : string → option exn;
  (* f(arg) *)
  invoke : value → value → RosBridgeProtocol →
           RosBridgeProtocol * result value;
  (* fac.emit(topic, msg) *)
  emit : value → value → value → RosBridgeProtocol →
         RosBridgeProtocol * result value
}.

Section Protocol.
Context `{env : Collaborators}.

Local Abbreviation M := (Eff RosBridgeProtocol).

Definition call (f arg : value) : M value :=
  λ st, let '(self', r) := invoke f arg st.1 in
        ((self', st.2 ++ [Call f arg]), r).

Definition factory_emit (fac topic msg : value) : M value :=
  λ st, let '(self', r) := emit fac topic msg st.1 in
        ((self', st.2 ++ [Emit fac topic msg]), r).

Definition self_sendMessage (payload : string) : M () :=
  λ st, ((st.1, st.2 ++ [SendMessage payload]),
         match sendMessage payload with
         | None => Ok ()
         | Some e => Raise e
         end).

Definition RosBridgeProtocol_init : RosBridgeProtocol :=
  {| factory := VNone;
     _pending_service_requests := ∅;
     _message_handlers :=
       <[KStr "publish" := self_handle_publish]>
         (<[KStr "service_response" := self_handle_service_response]> ∅) |}.

Definition send_ros_message (message : gmap string value) : M () :=
  try_except
    (payload ← lift (json_dumps message);
     self_sendMessage payload)
    is_StandardError
    (λ exception, record (LogException exception)).

Definition register_message_handlers (operation h : value) : M () :=
  k ← hash operation;
  handlers ← gets _message_handlers;
  match handlers !! k with
  | Some _ => raise HandlerConflictError
  | None => modify (set_handlers <[k := registered h]>)
  end.

Definition send_ros_service_request (service_request : gmap string value)
    (callback errback : value) : M () :=
  request_id ← getitem service_request "id";
  k ← hash request_id;
  modify (set_pending <[k := (callback, errback)]>);;
  payload ← lift (json_dumps service_request);
  self_sendMessage payload.

Definition _handle_publish (message : gmap string value) : M () :=
  fac ← gets factory;
  match fac with
  | VNone => raise (Exn AttributeError (no_attribute "emit"))
  | _ =>
      topic ← getitem message "topic";
      msg ← getitem message "msg";
      factory_emit fac topic msg;;
      mret ()
  end.

(** ['result' in message and message['result'] == False] *)
Definition result_is_False (message : gmap string value) : bool :=
  match message !! "result" with
  | Some r => eq_False r
  | None => false
  end.

Definition _handle_service_response (message : gmap string value) : M () :=
  request_id ← getitem message "id";
  k ← hash request_id;
  pending ← gets _pending_service_requests;
  match pending !! k with
  | None => raise (UnknownRequestIdError request_id)
  | Some (callback, errback) =>
      modify (set_pending (delete k));;
      if result_is_False message
      then
        if truthy errback
        then values ← getitem message "values";
             call errback values;;
             mret ()
        else mret ()
      else
        if truthy callback
        then values ← getitem message "values";
             request ← lift (ServiceRequest values);
             call callback request;;
             mret ()
        else mret ()
  end.

(** [handler(message)]: a registered object is called with the message. *)
Definition run_handler (h : handler) (message : gmap string value) : M () :=
  match h with
  | self_handle_publish => _handle_publish message
  | self_handle_service_response => _handle_service_response message
  | registered f => call f (VDict message);; mret ()
  end.

(** The second half of [onMessage]: look the handler up by [message['op']]
    and run it. *)
Definition dispatch (message : gmap string value) : M () :=
  op ← getitem message "op";
  k ← hash op;
  handlers ← gets _message_handlers;
  match handlers !! k with
  | Some h =>
      if handler_truthy h
      then run_handler h message
      else raise (UnknownOperationError op)
  | None => raise (UnknownOperationError op)
  end.

Definition onMessage (payload : string) (isBinary : bool) : M () :=
  if isBinary
  then raise UnsupportedFrameError
  else
    v ← lift (json_loads payload);
    message ← lift (Message v);
    dispatch message.

(** The state and outcome of calling [f(arg)] on instance [self] after
    trace [t], the value returned being dropped. *)
Definition calling (f arg : value) (self : RosBridgeProtocol)
    (t : list event) : (RosBridgeProtocol * list event) * result () :=
  let '(self', r) := invoke f arg self in
  ((self', t ++ [Call f arg]), returning_None r).

(** The state and outcome of [f(ServiceRequest(values))]: the container is
    built first, and nothing is called when building it raises. *)
Definition calling_with_request (f values : value) (self : RosBridgeProtocol)
    (t : list event) : (RosBridgeProtocol * list event) * result () :=
  match ServiceRequest values with
  | Ok request => calling f request self t
  | Raise e => ((self, t), Raise e)
  end.

(** The same for [fac.emit(topic, msg)]. *)
Definition emitting (fac topic msg : value) (self : RosBridgeProtocol)
    (t : list event) : (RosBridgeProtocol * list event) * result () :=
  let '(self', r) := emit fac topic msg self in
  ((self', t ++ [Emit fac topic msg]), returning_None r).

(** The specification's reading of a response's [result] field: failure
    when the field is present and is the boolean [false]. *)
Definition explicitly_false (message : gmap string value) : bool :=
  match message !! "result" with
  | Some (VBool false) => true
  | _ => false
  end.

(** The data model types [result] as an optional boolean. *)
Definition result_well_typed (message : gmap string value) : Prop :=
  message !! "result" = None ∨ ∃ b, message !! "result" = Some (VBool b).

End Protocol.

(** ** RosBridgeClientFactory and its readiness Deferred *)

(** [twisted.internet.defer.Deferred], as far as the factory uses it:
    [addCallback], [callback] and [errback].  A Deferred runs its callbacks
    as a chain: each one is popped, called with the current result, and its
    return value becomes the result handed to the next; an exception raised
    by a callback becomes a [Failure], and a callback added with
    [addCallback] has the pass-through errback, so it is skipped while the
    result is a [Failure].  Firing a Deferred twice raises
    [AlreadyCalledError]. *)
Inductive outcome :=
| Value (v : value)
| Failure (reason : exn).

Record Deferred := {
  called : bool;
  current_result : option outcome;
  callbacks : list value
}.

Record RosBridgeClientFactory := {
  _on_ready_event : Deferred
}.

Section Factory.
(** What a ready-callback does when called: it returns or it raises.
    Callbacks that add further callbacks to the Deferred while the chain
    runs, or that return a Deferred, are outside this model. *)
Variable apply_callback : value → value → result value.

Local Abbreviation D := (Eff Deferred).
Local Abbreviation F := (Eff RosBridgeClientFactory).

Definition Deferred_init : Deferred :=
  {| called := false; current_result := None; callbacks := [] |}.

(** The loop of [_runCallbacks] over the callbacks present: returns the
    final result and the calls made, in order. *)
Fixpoint run_chain (cbs : list value) (res : outcome) : outcome * list event :=
  match cbs with
  | [] => (res, [])
  | cb :: rest =>
      match res with
      | Failure _ => run_chain rest res
      | Value v =>
          let res' := match apply_callback cb v with
                      | Ok v' => Value v'
                      | Raise e => Failure e
                      end in
          let '(final, calls) := run_chain rest res' in
          (final, Call cb v :: calls)
      end
  end.

Definition _runCallbacks : D () :=
  λ st,
    let d := st.1 in
    match current_result d with
    | None => (st, Ok ())
    | Some res =>
        let '(final, calls) := run_chain (callbacks d) res in
        (({| called := called d;
             current_result := Some final;
             callbacks := [] |}, st.2 ++ calls), Ok ())
    end.

Definition addCallback (callback : value) : D () :=
  modify (λ d : Deferred, {| called := called d;
                  current_result := current_result d;
                  callbacks := callbacks d ++ [callback] |});;
  is_called ← gets called;
  if is_called : bool then _runCallbacks else mret ().

Definition _startRunCallbacks (res : outcome) : D () :=
  is_called ← gets called;
  if is_called : bool
  then raise (Exn AlreadyCalledError (text ""))
  else
    modify (λ d : Deferred, {| called := true;
                    current_result := Some res;
                    callbacks := callbacks d |});;
    _runCallbacks.

Definition Deferred_callback (res : value) : D () :=
  _startRunCallbacks (Value res).

Definition Deferred_errback (fail : exn) : D () :=
  _startRunCallbacks (Failure fail).

(** Run a Deferred method on [self._on_ready_event]. *)
Definition on_ready_event {A} (m : D A) : F A :=
  λ st,
    let '((d', t'), r) := m (_on_ready_event st.1, st.2) in
    (({| _on_ready_event := d' |}, t'), r).

Definition RosBridgeClientFactory_init : RosBridgeClientFactory :=
  {| _on_ready_event := Deferred_init |}.

Definition on_ready (callback : value) : F () :=
  on_ready_event (addCallback callback).

Definition ready (proto : value) : F () :=
  on_ready_event (Deferred_callback proto).

Definition clientConnectionFailed (connector : value) (reason : exn) : F () :=
  record (LogDebug "Connection failed. Reason: %s");;
  record (SuperConnectionFailed reason);;
  on_ready_event (Deferred_errback reason).

(** The arguments the callback [cb] was called with, in order. *)
Definition calls_of (cb : N) (t : list event) : list value :=
  omap (λ ev, match ev with
              | Call (VObject f) arg => if decide (f = cb) then Some arg else None
              | _ => None
              end) t.

End Factory.

(** ** Sample collaborators *)

(** Collaborators for running the model on concrete frames: the codec maps
    a payload to an object with that [op], every callback and subscriber
    returns [None] and leaves the protocol alone, and the transport answers
    every send with [transport]. *)
Definition sample (transport : option exn) : Collaborators :=
  {| json_dumps := λ _, Ok "{...}";
     json_loads := λ payload, Ok (VDict {[ "op" := VStr payload ]});
     Message := λ v : value,
       match v with
       | VDict d => Ok d
       | _ => Raise (Exn TypeError (text "not a mapping"))
       end;
     ServiceRequest := λ v : value, Ok v;
     sendMessage := λ _, transport;
     invoke := λ _ _ self, (self, Ok VNone);
     emit := λ _ _ _ self, (self, Ok VNone) |}.

(** A ready-callback that returns [None], as a Python function without a
    [return] statement does. *)
Definition returns_None (cb arg : value) : result value := Ok VNone.

(** A ready-callback written for chaining: it returns its argument. *)
Definition returns_argument (cb arg : value) : result value := Ok arg.

(** Objects used in the examples: two service callbacks, two
    ready-callbacks, a message handler, a factory, and a protocol instance
    handed to the ready-callbacks. *)
Definition on_success : value := VObject 1.
Definition on_failure : value := VObject 2.
Definition first_ready : value := VObject 3.
Definition second_ready : value := VObject 4.
Definition a_handler : value := VObject 6.
Definition the_factory : value := VObject 7.
Definition session : value := VObject 9.

(** A protocol built by the factory (so [factory] is set) with one request
    pending under [request_id]. *)
Definition awaiting (request_id : string) : RosBridgeProtocol :=
  {| factory := the_factory;
     _pending_service_requests :=
       {[ KStr request_id := (on_success, on_failure) ]};
     _message_handlers := _message_handlers RosBridgeProtocol_init |}.

Definition response (request_id : string) (fields : gmap string value) :
    gmap string value :=
  <["op" := VStr "service_response"]> (<["id" := VStr request_id]> fields).

Definition quiet : Collaborators := sample None.

(** Collaborators whose success callback [on_success] issues a new request
    under the id it was answering: it stores a new pair for [request_id]
    in the protocol it runs against. *)
Definition reissuing (request_id : string) : Collaborators :=
  {| json_dumps := json_dumps (Collaborators := quiet);
     json_loads := json_loads (Collaborators := quiet);
     Message := Message (Collaborators := quiet);
     ServiceRequest := ServiceRequest (Collaborators := quiet);
     sendMessage := sendMessage (Collaborators := quiet);
     invoke := λ f _ self,
       match f with
       | VObject 1 =>
           (set_pending <[KStr request_id := (first_ready, second_ready)]> self,
            Ok VNone)
       | _ => (self, Ok VNone)
       end;
     emit := emit (Collaborators := quiet) |}.

(** The envelopes of the specification's scenarios. *)
Definition x_is_1 : value := VDict {[ "x" := VInt 1 ]}.
Definition success_42 : gmap string value :=
  response "42" {[ "values" := x_is_1 ]}.
Definition failure_42 : gmap string value :=
  response "42" (<["result" := VBool false]> {[ "values" := VStr "boom" ]}).
Definition scan : gmap string value :=
  <["op" := VStr "publish"]>
    (<["topic" := VStr "/scan"]> {[ "msg" := VList [] ]}).

Definition bare_Exception : exn := Exn Exception (text "send failed").
Definition an_IOError : exn := Exn IOError (text "send failed").

(** Two ready-callbacks are registered on a new factory, then the
    connection opens and [ready] is called with the protocol. *)
Definition two_callbacks_then_ready (apply_callback : value → value → result value)
    (c1 c2 proto : value) : (RosBridgeClientFactory * list event) * result () :=
  (on_ready apply_callback c1;;
   on_ready apply_callback c2;;
   ready apply_callback proto) (RosBridgeClientFactory_init, []).

(** The same registrations, then the connection attempt fails. *)
Definition two_callbacks_then_failed (apply_callback : value → value → result value)
    (c1 c2 connector : value) (reason : exn) :
    (RosBridgeClientFactory * list event) * result () :=
  (on_ready apply_callback c1;;
   on_ready apply_callback c2;;
   clientConnectionFailed apply_callback connector reason)
    (RosBridgeClientFactory_init, []).


(** ** Connection events on the factory *)

Section FactoryEvents.
Variable apply_callback : value → value → result value.

Definition startedConnecting (connector : value) :
    Eff RosBridgeClientFactory () :=
  record (LogDebug "Started to connect...").

(** [RosBridgeProtocol.onOpen]: it logs and calls [self.factory.ready(self)],
    so it runs on the factory the protocol [self] refers to; [self_ref] is
    the protocol object as the ready-callbacks receive it. *)
Definition onOpen (self : RosBridgeProtocol) (self_ref : value) :
    Eff RosBridgeClientFactory () :=
  record (LogDebug "Connection to ROS MASTER ready.");;
  match factory self with
  | VNone => raise (Exn AttributeError (no_attribute "ready"))
  | _ => ready apply_callback self_ref
  end.

(** What reaches a factory over its life, one reactor callback at a time. *)
Inductive factory_event :=
| do_on_ready (callback : value)
| do_ready (proto : value)
| do_onOpen (self : RosBridgeProtocol) (self_ref : value)
| do_startedConnecting (connector : value)
| do_clientConnectionFailed (connector : value) (reason : exn).

Definition perform (ev : factory_event) : Eff RosBridgeClientFactory () :=
  match ev with
  | do_on_ready callback => on_ready apply_callback callback
  | do_ready proto => ready apply_callback proto
  | do_onOpen self self_ref => onOpen self self_ref
  | do_startedConnecting connector => startedConnecting connector
  | do_clientConnectionFailed connector reason =>
      clientConnectionFailed apply_callback connector reason
  end.

(** The events are separate callbacks of the reactor: an exception ends the
    callback that raised it, and the next event finds the factory as that
    callback left it. *)
Fixpoint run (evs : list factory_event)
    (st : RosBridgeClientFactory * list event) :
    RosBridgeClientFactory * list event :=
  match evs with
  | [] => st
  | ev :: rest => run rest (perform ev st).1
  end.

(** The outcomes of the events of a run, in order. *)
Fixpoint outcomes (evs : list factory_event)
    (st : RosBridgeClientFactory * list event) : list (result ()) :=
  match evs with
  | [] => []
  | ev :: rest => (perform ev st).2 :: outcomes rest (perform ev st).1
  end.

End FactoryEvents.

(** The events that try to fire the readiness Deferred. *)
Definition fires (ev : factory_event) : bool :=
  match ev with
  | do_ready _ | do_onOpen _ _ | do_clientConnectionFailed _ _ => true
  | do_on_ready _ | do_startedConnecting _ => false
  end.

Definition is_Call (ev : event) : bool :=
  match ev with
  | Call _ _ => true
  | _ => false
  end.

Definition callee (ev : event) : option value :=
  match ev with
  | Call f _ => Some f
  | _ => None
  end.

Definition is_Ok {A} (r : result A) : bool :=
  match r with
  | Ok _ => true
  | Raise _ => false
  end.

(** How many of the events of a run that try to fire the Deferred return
    normally. *)
Fixpoint fired (evs : list factory_event) (rs : list (result ())) : nat :=
  match evs, rs with
  | ev :: evs', r :: rs' =>
      (if fires ev && is_Ok r then 1 else 0) + fired evs' rs'
  | _, _ => 0
  end.

(** How many members of a list satisfy a test. *)
Fixpoint count {A} (p : A → bool) (l : list A) : nat :=
  match l with
  | [] => 0
  | x :: l' => (if p x then 1 else 0) + count p l'
  end.

(** Collaborators whose encoder rejects every message, as [json.dumps]
    does with [TypeError] on an object it cannot serialize. *)
Definition not_serializable : exn := Exn TypeError (text "not JSON serializable").

Definition unserializable : Collaborators :=
  {| json_dumps := λ _, Raise not_serializable;
     json_loads := json_loads (Collaborators := quiet);
     Message := Message (Collaborators := quiet);
     ServiceRequest := ServiceRequest (Collaborators := quiet);
     sendMessage := sendMessage (Collaborators := quiet);
     invoke := invoke (Collaborators := quiet);
     emit := emit (Collaborators := quiet) |}.

(** The Deferred holds a failure and an empty queue. *)
Definition failed_for_good (f : RosBridgeClientFactory) : Prop :=
  called (_on_ready_event f) = true ∧
  callbacks (_on_ready_event f) = [] ∧
  ∃ e, current_result (_on_ready_event f) = Some (Failure e).

(** A request as [send_ros_service_request] receives it. *)
Definition request (request_id : value) (fields : gmap string value) :
    gmap string value :=
  <["op" := VStr "call_service"]> (<["id" := request_id]> fields).

(** Envelopes and events for the examples. *)
Definition status_frame : gmap string value := {[ "op" := VStr "status" ]}.
Definition request_43 : gmap string value := request (VStr "43") ∅.
Definition request_44 : gmap string value := request (VStr "44") ∅.
Definition success_43 : gmap string value :=
  response "43" {[ "values" := x_is_1 ]}.
Definition failure_44 : gmap string value :=
  response "44" (<["result" := VBool false]> {[ "values" := VStr "boom" ]}).
Definition null_result_42 : gmap string value :=
  response "42" (<["result" := VNone]> {[ "values" := x_is_1 ]}).
Definition a_connector : value := VObject 8.
Definition connection_refused : exn := Exn IOError (text "connection refused").

(** A stand-in for the package's [ServiceRequest], a [UserDict] whose
    constructor hands its argument to [dict.update]: nothing or a mapping is
    accepted; text is read as a sequence of pairs, so any character of it is
    refused with [ValueError]; a number is not iterable.  A list is read as
    pairs of a text key and a value. *)
Fixpoint update_from_pairs (l : list value) (d : gmap string value) :
    result (gmap string value) :=
  match l with
  | [] => Ok d
  | VList [VStr k; v] :: rest => update_from_pairs rest (<[k := v]> d)
  | _ :: _ => Raise (Exn ValueError (text "dictionary update sequence"))
  end.

Definition UserDict (v : value) : result value :=
  match v with
  | VNone => Ok (VDict ∅)
  | VDict d => Ok (VDict d)
  | VStr "" => Ok (VDict ∅)
  | VStr _ => Raise (Exn ValueError (text "dictionary update sequence"))
  | VList l =>
      match update_from_pairs l ∅ with
      | Ok d => Ok (VDict d)
      | Raise e => Raise e
      end
  | VBool _ | VInt _ | VObject _ => Raise (Exn TypeError (text "not iterable"))
  end.

Definition packaged : Collaborators :=
  {| json_dumps := json_dumps (Collaborators := quiet);
     json_loads := json_loads (Collaborators := quiet);
     Message := Message (Collaborators := quiet);
     ServiceRequest := UserDict;
     sendMessage := sendMessage (Collaborators := quiet);
     invoke := invoke (Collaborators := quiet);
     emit := emit (Collaborators := quiet) |}.

(** A success response whose payload is text. *)
Definition done_42 : gmap string value :=
  response "42" {[ "values" := VStr "done" ]}.

(** Ready-callbacks of which [first_ready] raises. *)
Definition callback_failed : exn := Exn ValueError (text "callback failed").
Definition first_raises (cb arg : value) : result value :=
  match cb with
  | VObject 3 => Raise callback_failed
  | _ => Ok VNone
  end.

(** The callbacks registered by the events of a run, in order. *)
Definition registered_callbacks (evs : list factory_event) : list value :=
  omap (λ ev, match ev with
              | do_on_ready callback => Some callback
              | _ => None
              end) evs.

(** The trace of a dispatch that selects [f(arg)] with the container built
    from [values] on the success side. *)
Definition calls_selected (failed : bool) (f g values : value)
    (container : result value) : list event :=
  if failed then [Call g values]
  else match container with
       | Ok request => [Call f request]
       | Raise _ => []
       end.

(** * Properties *)

Ltac eff_unfold :=
  unfold mbind, mret, Eff_bind, Eff_ret, getitem, hash, raise, lift, gets,
    modify, record, try_except in *.

Section ProtocolFacts.
Context `{env : Collaborators}.

Lemma call_then_None f arg self t :
  (call f arg;; mret ()) (self, t) = calling f arg self t.
Proof.
  unfold call, calling. eff_unfold. simpl.
  destruct (invoke f arg self) as [self' [v|e]]; reflexivity.
Qed.

Lemma calling_trace f arg self t :
  (calling f arg self t).1.2 = t ++ [Call f arg].
Proof. unfold calling. destruct (invoke f arg self); reflexivity. Qed.

Lemma emitting_trace fac topic msg self t :
  (emitting fac topic msg self t).1.2 = t ++ [Emit fac topic msg].
Proof. unfold emitting. destruct (emit fac topic msg self); reflexivity. Qed.

(** A response whose id is pending: the entry is deleted, then the branch
    chosen by the [result] test runs on the instance without the entry. *)
Lemma handle_service_response_pending self t message X k callback errback :
  message !! "id" = Some X →
  hash_key X = Some k →
  _pending_service_requests self !! k = Some (callback, errback) →
  _handle_service_response message (self, t) =
    (if result_is_False message
     then if truthy errback
          then values ← getitem message "values";
               call errback values;; mret ()
          else mret ()
     else if truthy callback
          then values ← getitem message "values";
               request ← lift (ServiceRequest values);
               call callback request;; mret ()
          else mret ()) (set_pending (delete k) self, t).
Proof.
  intros Hid Hk Hp. unfold _handle_service_response. eff_unfold.
  rewrite Hid. simpl. rewrite Hk. simpl. rewrite Hp. reflexivity.
Qed.

Lemma handle_service_response_unknown self t message X k :
  message !! "id" = Some X →
  hash_key X = Some k →
  _pending_service_requests self !! k = None →
  _handle_service_response message (self, t) =
    ((self, t), Raise (UnknownRequestIdError X)).
Proof.
  intros Hid Hk Hp. unfold _handle_service_response. eff_unfold.
  rewrite Hid. simpl. rewrite Hk. simpl. rewrite Hp. reflexivity.
Qed.

Lemma dispatch_runs_handler self t message op k h :
  message !! "op" = Some op →
  hash_key op = Some k →
  _message_handlers self !! k = Some h →
  handler_truthy h = true →
  dispatch message (self, t) = run_handler h message (self, t).
Proof.
  intros Hop Hk Hh Ht. unfold dispatch. eff_unfold.
  rewrite Hop. simpl. rewrite Hk. simpl. rewrite Hh, Ht. reflexivity.
Qed.

(** With [values] present, the chosen branch is one call or none. *)
Lemma handle_service_response_fires
    self t message X k callback errback values :
  message !! "id" = Some X →
  hash_key X = Some k →
  _pending_service_requests self !! k = Some (callback, errback) →
  message !! "values" = Some values →
  _handle_service_response message (self, t) =
    let self' := set_pending (delete k) self in
    if result_is_False message
    then if truthy errback
         then calling errback values self' t
         else ((self', t), Ok ())
    else if truthy callback
         then calling_with_request callback values self' t
         else ((self', t), Ok ()).
Proof.
  intros Hid Hk Hp Hv.
  rewrite (handle_service_response_pending _ _ _ _ _ _ _ Hid Hk Hp).
  cbv zeta. unfold calling_with_request.
  destruct (result_is_False message), (truthy errback), (truthy callback);
    try reflexivity;
    try (etrans; [| apply call_then_None];
         eff_unfold; rewrite Hv; reflexivity);
    eff_unfold; rewrite Hv; simpl;
    (destruct (ServiceRequest values) as [request|e]; [| reflexivity]);
    (etrans; [| apply call_then_None]); reflexivity.
Qed.

(** On well-typed responses the test of the code is the specification's
    "present and explicitly false". *)
Lemma result_is_False_explicit message :
  result_well_typed message →
  result_is_False message = explicitly_false message.
Proof.
  unfold result_well_typed, result_is_False, explicitly_false.
  intros [-> | [b ->]]; [reflexivity | by destruct b].
Qed.

End ProtocolFacts.

Section ProtocolClaims.
Context `{env : Collaborators}.

(** C1, as the code has it.  A request is pending under id [X] with a
    success callback [f] and a failure callback [g], both supplied.
    Dispatching one [service_response] envelope with that id deletes the
    entry and then makes at most one call, never both: [g] on the values
    when [result] is false; otherwise [f] on the values wrapped in the
    package's [ServiceRequest] container, when the container accepts them.
    When the container refuses the values its error is raised, the entry
    stays consumed and neither callback is called.  Whatever is called runs
    against an instance that no longer holds [X]. *)
Theorem service_response_fires_at_most_one_callback
    self t message X k f g values :
  _message_handlers self !! KStr "service_response"
    = Some self_handle_service_response →
  message !! "op" = Some (VStr "service_response") →
  message !! "id" = Some X →
  hash_key X = Some k →
  _pending_service_requests self !! k = Some (f, g) →
  truthy f = true →
  truthy g = true →
  message !! "values" = Some values →
  let self' := set_pending (delete k) self in
  _pending_service_requests self' !! k = None ∧
  dispatch message (self, t) =
    (if result_is_False message
     then calling g values self' t
     else match ServiceRequest values with
          | Ok request => calling f request self' t
          | Raise e => ((self', t), Raise e)
          end) ∧
  (dispatch message (self, t)).1.2 =
    t ++ calls_selected (result_is_False message) f g values
           (ServiceRequest values).
Proof.
  intros Hh Hop Hid Hk Hp Hf Hg Hv self'. split.
  { apply lookup_delete_eq. }
  assert (Hd : dispatch message (self, t)
               = _handle_service_response message (self, t)).
  { by apply (dispatch_runs_handler _ _ _ (VStr "service_response")
                (KStr "service_response") self_handle_service_response). }
  rewrite Hd, (handle_service_response_fires _ _ _ _ _ _ _ _ Hid Hk Hp Hv).
  cbv zeta. unfold calling_with_request, calls_selected.
  rewrite Hf, Hg. fold self'.
  destruct (result_is_False message).
  - split; [done | apply calling_trace].
  - destruct (ServiceRequest values) as [request|e].
    + split; [done | apply calling_trace].
    + split; [done |]. simpl. by rewrite app_nil_r.
Qed.

(** C2, as the code has it.  The default [service_response] handler, on an
    envelope whose id is pending: the entry is deleted first, so whatever is
    called next runs against the table without it.  Then, if [result] is
    present and explicitly false, [onFailure] is called with the values when
    it is not null; otherwise, when [onSuccess] is not null, the package's
    [ServiceRequest] container is built from the values and [onSuccess] is
    called with that container, and it is not called when the container
    refuses the values, whose error is raised instead.  A null callback
    means no call at all. *)
Theorem handle_service_response_removes_then_fires
    self t message X k onSuccess onFailure values :
  message !! "id" = Some X →
  hash_key X = Some k →
  _pending_service_requests self !! k = Some (onSuccess, onFailure) →
  result_well_typed message →
  message !! "values" = Some values →
  let self' := set_pending (delete k) self in
  _pending_service_requests self'
    = delete k (_pending_service_requests self) ∧
  _handle_service_response message (self, t) =
    if explicitly_false message
    then if truthy onFailure
         then calling onFailure values self' t
         else ((self', t), Ok ())
    else if truthy onSuccess
         then calling_with_request onSuccess values self' t
         else ((self', t), Ok ()).
Proof.
  intros Hid Hk Hp Hr Hv self'. split; [reflexivity |].
  rewrite <- (result_is_False_explicit _ Hr).
  apply (handle_service_response_fires _ _ _ _ _ _ _ _ Hid Hk Hp Hv).
Qed.

(** C3. Dispatching a [service_response] whose id has no pending entry
    raises the unknown-request-id error: nothing is called (the trace is
    unchanged) and the instance, its table included, is unchanged.  This is
    the case of any further response for an id whose entry has been
    consumed. *)
Theorem service_response_unknown_id_fails self t message X k :
  _message_handlers self !! KStr "service_response"
    = Some self_handle_service_response →
  message !! "op" = Some (VStr "service_response") →
  message !! "id" = Some X →
  hash_key X = Some k →
  (_pending_service_requests self !! k = None →
   dispatch message (self, t) = ((self, t), Raise (UnknownRequestIdError X))) ∧
  (let resolved := set_pending (delete k) self in
   dispatch message (resolved, t)
     = ((resolved, t), Raise (UnknownRequestIdError X))).
Proof.
  intros Hh Hop Hid Hk.
  assert (Hgen : ∀ s, _message_handlers s = _message_handlers self →
                      _pending_service_requests s !! k = None →
                      dispatch message (s, t)
                        = ((s, t), Raise (UnknownRequestIdError X))).
  { intros s Hs Hnone.
    rewrite (dispatch_runs_handler _ _ _ (VStr "service_response")
               (KStr "service_response") self_handle_service_response);
      [| done | done | by rewrite Hs | done].
    by apply (handle_service_response_unknown _ _ _ _ k). }
  split.
  - intros Hnone. by apply Hgen.
  - cbv zeta. apply Hgen; [reflexivity |]. apply lookup_delete_eq.
Qed.

(** C4. An operation that already has a handler keeps it: whatever the
    outcome of a registration, a handler that was installed is still the one
    installed afterwards, and registering for its operation raises the
    handler-conflict error and changes nothing.  The two handlers installed
    at construction, for [publish] and [service_response], are among
    them. *)
Theorem register_message_handlers_conflict
    self t operation h k installed :
  _message_handlers self !! k = Some installed →
  _message_handlers (register_message_handlers operation h (self, t)).1.1 !! k
    = Some installed ∧
  (hash_key operation = Some k →
   register_message_handlers operation h (self, t)
     = ((self, t), Raise HandlerConflictError)) ∧
  (_message_handlers RosBridgeProtocol_init !! KStr "publish"
     = Some self_handle_publish ∧
   _message_handlers RosBridgeProtocol_init !! KStr "service_response"
     = Some self_handle_service_response ∧
   register_message_handlers (VStr "publish") h (RosBridgeProtocol_init, t)
     = ((RosBridgeProtocol_init, t), Raise HandlerConflictError) ∧
   register_message_handlers (VStr "service_response") h
       (RosBridgeProtocol_init, t)
     = ((RosBridgeProtocol_init, t), Raise HandlerConflictError)).
Proof.
  intros Hin. split; [| split].
  - unfold register_message_handlers. eff_unfold.
    destruct (hash_key operation) as [k'|] eqn:Hk; simpl; [| done].
    destruct (_message_handlers self !! k') eqn:Hk'; simpl; [done |].
    rewrite lookup_insert_ne; [done | congruence].
  - intros Hk. unfold register_message_handlers. eff_unfold.
    rewrite Hk. simpl. by rewrite Hin.
  - by repeat split.
Qed.

(** C5. Dispatching a [publish] envelope with topic [T] and payload [msg]
    makes exactly one call out of the protocol: [emit(T, msg)] on the
    factory's event emitter, which owns the subscribers of [T].  The
    protocol instance is handed over untouched. *)
Theorem publish_dispatch_emits_once self t message T msg :
  _message_handlers self !! KStr "publish" = Some self_handle_publish →
  factory self ≠ VNone →
  message !! "op" = Some (VStr "publish") →
  message !! "topic" = Some T →
  message !! "msg" = Some msg →
  dispatch message (self, t) = emitting (factory self) T msg self t ∧
  (dispatch message (self, t)).1.2 = t ++ [Emit (factory self) T msg].
Proof.
  intros Hh Hfac Hop HT Hmsg.
  assert (Hd : dispatch message (self, t)
               = emitting (factory self) T msg self t).
  { rewrite (dispatch_runs_handler _ _ _ (VStr "publish") (KStr "publish")
               self_handle_publish) by done.
    simpl. unfold _handle_publish, emitting, factory_emit. eff_unfold. simpl.
    destruct (factory self) eqn:Hf; try done;
      rewrite HT; simpl; rewrite Hmsg; simpl;
      match goal with |- context [emit ?a ?b ?c ?d] =>
        destruct (emit a b c d) as [? [?|?]] end; reflexivity. }
  split; [exact Hd |]. rewrite Hd. apply emitting_trace.
Qed.

(** C6. A binary frame, whatever it carries, raises the unsupported-frame
    error and changes nothing.  A text frame that decodes into an envelope
    is dispatched on its [op]: when a handler is installed for it (and tests
    true) the outcome of [onMessage] is that handler at work on the envelope,
    the publish handler, the service-response handler, or one call of a
    registered object with the message; when none is installed, the
    unknown-operation error is raised, the instance, and so the correlation
    table, is as it was, and nothing is called. *)
Theorem onMessage_rejects_or_dispatches payload self t :
  onMessage payload true (self, t) = ((self, t), Raise UnsupportedFrameError) ∧
  (∀ v message op k,
     json_loads payload = Ok v →
     Message v = Ok message →
     message !! "op" = Some op →
     hash_key op = Some k →
     onMessage payload false (self, t) =
       match _message_handlers self !! k with
       | Some self_handle_publish => _handle_publish message (self, t)
       | Some self_handle_service_response =>
           _handle_service_response message (self, t)
       | Some (registered h) =>
           if truthy h
           then calling h (VDict message) self t
           else ((self, t), Raise (UnknownOperationError op))
       | None => ((self, t), Raise (UnknownOperationError op))
       end).
Proof.
  split; [reflexivity |].
  intros v message op k Hj Hm Hop Hk.
  unfold onMessage, dispatch. eff_unfold.
  rewrite Hj, Hm. simpl. rewrite Hop. simpl. rewrite Hk. simpl.
  destruct (_message_handlers self !! k) as [[| |h]|]; simpl; try reflexivity.
  destruct (truthy h); [apply call_then_None | reflexivity].
Qed.

(** C7, as the code has it.  [send_ros_message] serializes the message and
    hands it to the transport.  When the send raises an exception whose
    class is [StandardError] or derives from it, the exception is logged and
    the method returns normally, the instance unchanged; an exception of any
    other class is not caught by [except StandardError] and reaches the
    caller, unlogged. *)
Theorem send_ros_message_swallows_StandardError self t message payload :
  json_dumps message = Ok payload →
  (sendMessage payload = None →
   send_ros_message message (self, t)
     = ((self, t ++ [SendMessage payload]), Ok ())) ∧
  (∀ e, sendMessage payload = Some e →
        is_StandardError (exn_type e) = true →
        send_ros_message message (self, t)
          = ((self, t ++ [SendMessage payload; LogException e]), Ok ())) ∧
  (∀ e, sendMessage payload = Some e →
        is_StandardError (exn_type e) = false →
        send_ros_message message (self, t)
          = ((self, t ++ [SendMessage payload]), Raise e)).
Proof.
  intros Hj. unfold send_ros_message, self_sendMessage. eff_unfold.
  rewrite Hj. simpl.
  split; [| split]; [intros -> | intros e -> -> ..]; simpl; try reflexivity.
  by rewrite <- app_assoc.
Qed.

(** C9. Registering a service request under an id that is live goes
    through like any other registration: no error is raised for the
    duplicate, the entry of that id now holds the new callback pair and the
    rest of the table is as before.  The pair stored before is gone from
    the id, so a response for it is answered by the new pair only. *)
Theorem send_ros_service_request_overwrites_live_id
    self t service_request X k callback errback previous payload :
  service_request !! "id" = Some X →
  hash_key X = Some k →
  _pending_service_requests self !! k = Some previous →
  json_dumps service_request = Ok payload →
  let self' := set_pending <[k := (callback, errback)]> self in
  send_ros_service_request service_request callback errback (self, t)
    = ((self', t ++ [SendMessage payload]),
       match sendMessage payload with None => Ok () | Some e => Raise e end) ∧
  _pending_service_requests self' !! k = Some (callback, errback) ∧
  (∀ k', k' ≠ k →
     _pending_service_requests self' !! k'
       = _pending_service_requests self !! k') ∧
  (∀ message values t',
     message !! "id" = Some X →
     message !! "values" = Some values →
     _handle_service_response message (self', t') =
       let self'' := set_pending (delete k) self in
       if result_is_False message
       then if truthy errback
            then calling errback values self'' t'
            else ((self'', t'), Ok ())
       else if truthy callback
            then calling_with_request callback values self'' t'
            else ((self'', t'), Ok ())).
Proof.
  intros Hid Hk Hp Hj self'.
  assert (Hnew : _pending_service_requests self' !! k
                 = Some (callback, errback)) by apply lookup_insert_eq.
  split; [| split; [exact Hnew | split]].
  - unfold send_ros_service_request, self_sendMessage. eff_unfold.
    rewrite Hid. simpl. rewrite Hk. simpl. rewrite Hj. reflexivity.
  - intros k' Hne. simpl. by rewrite lookup_insert_ne.
  - intros message values t' Hmid Hv.
    rewrite (handle_service_response_fires _ _ _ _ _ _ _ _ Hmid Hk Hnew Hv).
    assert (Hdel : set_pending (delete k) self' = set_pending (delete k) self).
    { unfold self', set_pending. simpl. f_equal. apply delete_insert_eq. }
    cbv zeta. by rewrite Hdel.
Qed.

(** C10. [send_ros_service_request] stores the callback pair before it
    sends, and sends outside any [try]: when the transport raises, whatever
    the class of the exception, the caller gets that exception, nothing is
    logged, and the entry stored for the id is still in the table. *)
Theorem send_ros_service_request_send_failure_keeps_entry
    self t service_request X k callback errback payload e :
  service_request !! "id" = Some X →
  hash_key X = Some k →
  json_dumps service_request = Ok payload →
  sendMessage payload = Some e →
  let self' := set_pending <[k := (callback, errback)]> self in
  send_ros_service_request service_request callback errback (self, t)
    = ((self', t ++ [SendMessage payload]), Raise e) ∧
  _pending_service_requests self' !! k = Some (callback, errback).
Proof.
  intros Hid Hk Hj Hs self'. split; [| apply lookup_insert_eq].
  unfold send_ros_service_request, self_sendMessage. eff_unfold.
  rewrite Hid. simpl. rewrite Hk. simpl. rewrite Hj. simpl.
  by rewrite Hs.
Qed.

End ProtocolClaims.

Section FactoryClaims.
Variable apply_callback : value → value → result value.

Lemma two_callbacks_then_ready_eq c1 c2 proto :
  two_callbacks_then_ready apply_callback c1 c2 proto =
    let '(final, calls) := run_chain apply_callback [c1; c2] (Value proto) in
    (({| _on_ready_event :=
           {| called := true; current_result := Some final; callbacks := [] |} |},
      calls), Ok ()).
Proof.
  unfold two_callbacks_then_ready, on_ready, ready, on_ready_event,
    addCallback, Deferred_callback, _startRunCallbacks, _runCallbacks.
  eff_unfold. simpl.
  destruct (apply_callback c1 proto) as [v|e]; simpl; [| reflexivity].
  destruct (apply_callback c2 v); reflexivity.
Qed.

(** C8, as the code has it.  The readiness Deferred belongs to the factory
    and fires once: firing one that has not fired returns normally and
    marks it fired, and once it has fired a further [ready] raises
    [AlreadyCalledError] leaving factory and trace as they are, and a further
    [clientConnectionFailed] does the same after its log line and the call
    to the base class; neither calls a callback.  Two callbacks registered
    with [on_ready] before the connection opens form a chain: when [ready]
    fires with the protocol, the first is called exactly once with the
    protocol; the second is called exactly once when the first returned,
    with the value the first returned, and not at all when the first
    raised.  So the second observes the protocol exactly when the first
    returns it.  Afterwards the queue is empty (no callback can run again),
    and a callback registered late is called with the result the chain
    ended on.  When the attempt fails instead, neither callback is
    called. *)
Theorem ready_runs_callbacks_as_chain c1 c2 proto :
  let after := two_callbacks_then_ready apply_callback c1 c2 proto in
  after.2 = Ok () ∧
  after.1.2 =
    Call c1 proto ::
      match apply_callback c1 proto with
      | Ok returned => [Call c2 returned]
      | Raise _ => []
      end ∧
  called (_on_ready_event after.1.1) = true ∧
  callbacks (_on_ready_event after.1.1) = [] ∧
  (∀ late,
     (on_ready apply_callback late after.1).1.2 =
       after.1.2 ++
       match current_result (_on_ready_event after.1.1) with
       | Some (Value v) => [Call late v]
       | _ => []
       end) ∧
  (∀ proto',
     ready apply_callback proto' after.1
       = (after.1, Raise (Exn AlreadyCalledError (text "")))) ∧
  (∀ connector reason,
     (clientConnectionFailed apply_callback connector reason after.1).2
       = Raise (Exn AlreadyCalledError (text ""))) ∧
  (∀ connector reason,
     (two_callbacks_then_failed apply_callback c1 c2 connector reason)
       = (({| _on_ready_event :=
                {| called := true; current_result := Some (Failure reason);
                   callbacks := [] |} |},
           [LogDebug "Connection failed. Reason: %s";
            SuperConnectionFailed reason]), Ok ())) ∧
  (∀ f t proto',
     called (_on_ready_event f) = true →
     ready apply_callback proto' (f, t)
       = ((f, t), Raise (Exn AlreadyCalledError (text "")))) ∧
  (∀ f t connector reason,
     called (_on_ready_event f) = true →
     clientConnectionFailed apply_callback connector reason (f, t)
       = ((f, t ++ [LogDebug "Connection failed. Reason: %s";
                    SuperConnectionFailed reason]),
          Raise (Exn AlreadyCalledError (text "")))) ∧
  (∀ f t proto',
     called (_on_ready_event f) = false →
     (ready apply_callback proto' (f, t)).2 = Ok () ∧
     called (_on_ready_event (ready apply_callback proto' (f, t)).1.1)
       = true) ∧
  (∀ f t connector reason,
     called (_on_ready_event f) = false →
     (clientConnectionFailed apply_callback connector reason (f, t)).2
       = Ok () ∧
     called (_on_ready_event
               (clientConnectionFailed apply_callback connector reason
                  (f, t)).1.1) = true ∧
     (clientConnectionFailed apply_callback connector reason (f, t)).1.2
       = t ++ [LogDebug "Connection failed. Reason: %s";
               SuperConnectionFailed reason]).
Proof.
  cbv zeta.
  assert (Hfailure : ∀ cbs e,
            run_chain apply_callback cbs (Failure e) = (Failure e, [])).
  { induction cbs as [|cb cbs IH]; intros e; simpl; [done | apply IH]. }
  repeat match goal with |- _ ∧ _ => split end.
  1-7: rewrite two_callbacks_then_ready_eq; simpl;
       destruct (apply_callback c1 proto) as [v|e] eqn:H1; simpl;
       [destruct (apply_callback c2 v) as [v'|e'] eqn:H2; simpl |];
       reflexivity.
  - reflexivity.
  - intros [[c r cbs]] t proto'. simpl. intros ->. reflexivity.
  - intros [[c r cbs]] t connector reason. simpl. intros ->.
    unfold clientConnectionFailed, on_ready_event, Deferred_errback,
      _startRunCallbacks. eff_unfold. simpl. by rewrite <- app_assoc.
  - intros [[c r cbs]] t proto'. simpl. intros ->.
    unfold ready, on_ready_event, Deferred_callback, _startRunCallbacks,
      _runCallbacks. eff_unfold. simpl.
    by destruct (run_chain apply_callback cbs (Value proto')).
  - intros [[c r cbs]] t connector reason. simpl. intros ->.
    unfold clientConnectionFailed, on_ready_event, Deferred_errback,
      _startRunCallbacks, _runCallbacks. eff_unfold. simpl.
    rewrite Hfailure. simpl. by rewrite app_nil_r, <- app_assoc.
Qed.

End FactoryClaims.

(** * The properties on concrete inputs *)

(** The handlers are called once the entry is gone: a success callback that
    registers a new pair under the id it is answering finds the id free,
    and its pair is the one pending afterwards. *)
Example reissued_request_survives :
  _pending_service_requests
      (dispatch (env := reissuing "42") success_42 (awaiting "42", [])).1.1
    !! KStr "42" = Some (first_ready, second_ready).
Proof. reflexivity. Qed.

(** Outside the data model, where [result] is a boolean and [values] is
    present: a numeric 0 compares equal to [False] and is taken as a
    failure, and a response without [values] consumes the entry and raises
    [KeyError] before any callback is called. *)
Example numeric_zero_result_is_taken_as_failure :
  (dispatch (env := quiet)
     (response "42" (<["result" := VInt 0]> {[ "values" := VStr "boom" ]}))
     (awaiting "42", [])).1.2
    = [Call on_failure (VStr "boom")].
Proof. reflexivity. Qed.

Example response_without_values_raises_KeyError :
  dispatch (env := quiet) (response "42" ∅) (awaiting "42", [])
    = ((set_pending (delete (KStr "42")) (awaiting "42"), []),
       Raise (Exn KeyError (missing_key "values"))).
Proof. reflexivity. Qed.

(** Ready-callbacks written for the chain, each returning its argument,
    both receive the protocol. *)
Example chained_callbacks_pass_session_on :
  (two_callbacks_then_ready returns_argument first_ready second_ready
     session).1.2
    = [Call first_ready session; Call second_ready session].
Proof. reflexivity. Qed.

(** The scenario of the specification: id 42 is pending; a response
    without [result] calls the success callback once and consumes the id. *)
Lemma service_response_fires_at_most_one_callback_witness :
  _pending_service_requests
      (set_pending (delete (KStr "42")) (awaiting "42")) !! KStr "42" = None ∧
  dispatch (env := quiet) success_42 (awaiting "42", [])
    = calling (env := quiet) on_success x_is_1
        (set_pending (delete (KStr "42")) (awaiting "42")) [] ∧
  (dispatch (env := quiet) success_42 (awaiting "42", [])).1.2
    = [Call on_success x_is_1].
Proof.
  exact (service_response_fires_at_most_one_callback (env := quiet)
           (awaiting "42") [] success_42 (VStr "42") (KStr "42")
           on_success on_failure x_is_1
           eq_refl eq_refl eq_refl eq_refl eq_refl eq_refl eq_refl eq_refl).
Defined.

(** Against C1 read for every response: a success response whose payload is
    text, with both callbacks supplied.  The container refuses the payload:
    the entry of id 42 is consumed, [ValueError] is raised, and neither
    callback has been called. *)
Lemma text_payload_reaches_neither_callback :
  truthy on_success = true ∧
  truthy on_failure = true ∧
  _pending_service_requests (awaiting "42") !! KStr "42"
    = Some (on_success, on_failure) ∧
  dispatch (env := packaged) done_42 (awaiting "42", [])
    = ((set_pending (delete (KStr "42")) (awaiting "42"), []),
       Raise (Exn ValueError (text "dictionary update sequence"))) ∧
  count is_Call (dispatch (env := packaged) done_42 (awaiting "42", [])).1.2
    = 0%nat.
Proof. repeat split; reflexivity. Qed.

(** Against C2 read for every payload: the same response handed to the
    handler.  [onSuccess] is not null, [result] is absent, and yet the
    handler ends without having called it. *)
Lemma non_null_onSuccess_is_not_called :
  truthy on_success = true ∧
  done_42 !! "result" = None ∧
  done_42 !! "values" = Some (VStr "done") ∧
  _handle_service_response (env := packaged) done_42 (awaiting "42", [])
    = ((set_pending (delete (KStr "42")) (awaiting "42"), []),
       Raise (Exn ValueError (text "dictionary update sequence"))) ∧
  (_handle_service_response (env := packaged) done_42
     (awaiting "42", [])).1.2
    ≠ [Call on_success (VStr "done")].
Proof. repeat split; [reflexivity .. | discriminate]. Qed.

(** A response with [result] false goes to the failure callback, on the
    instance that no longer holds the id. *)
Lemma handle_service_response_removes_then_fires_witness :
  _handle_service_response (env := quiet) failure_42 (awaiting "42", [])
    = calling (env := quiet) on_failure (VStr "boom")
        (set_pending (delete (KStr "42")) (awaiting "42")) [].
Proof.
  exact (proj2 (handle_service_response_removes_then_fires (env := quiet)
                  (awaiting "42") [] failure_42 (VStr "42") (KStr "42")
                  on_success on_failure (VStr "boom")
                  eq_refl eq_refl eq_refl
                  (or_intror (ex_intro _ false eq_refl)) eq_refl)).
Defined.

(** The second response of the scenario: id 42 has been consumed. *)
Lemma service_response_unknown_id_fails_witness :
  dispatch (env := quiet) failure_42
      (set_pending (delete (KStr "42")) (awaiting "42"), [])
    = ((set_pending (delete (KStr "42")) (awaiting "42"), []),
       Raise (UnknownRequestIdError (VStr "42"))).
Proof.
  exact (proj2 (service_response_unknown_id_fails (env := quiet)
                  (awaiting "42") [] failure_42 (VStr "42") (KStr "42")
                  eq_refl eq_refl eq_refl eq_refl)).
Defined.

(** Registering over the built-in [publish] handler. *)
Lemma register_message_handlers_conflict_witness :
  register_message_handlers (VStr "publish") a_handler (awaiting "42", [])
    = ((awaiting "42", []), Raise HandlerConflictError).
Proof.
  exact (proj1 (proj2 (register_message_handlers_conflict
                         (awaiting "42") [] (VStr "publish") a_handler
                         (KStr "publish") self_handle_publish eq_refl))
           eq_refl).
Defined.

(** The [/scan] scenario of the specification. *)
Lemma publish_dispatch_emits_once_witness :
  (dispatch (env := quiet) scan (awaiting "42", [])).1.2
    = [Emit the_factory (VStr "/scan") (VList [])].
Proof.
  refine (proj2 (publish_dispatch_emits_once (env := quiet)
                   (awaiting "42") [] scan (VStr "/scan") (VList [])
                   eq_refl _ eq_refl eq_refl eq_refl)).
  discriminate.
Defined.

(** A binary frame carrying a [publish] is refused although the operation
    has a handler; a [status] text frame finds no handler; a [publish] text
    frame reaches the publish handler. *)
Lemma onMessage_rejects_or_dispatches_witness :
  onMessage (env := quiet) "publish" true (awaiting "42", [])
    = ((awaiting "42", []), Raise UnsupportedFrameError) ∧
  onMessage (env := quiet) "status" false (awaiting "42", [])
    = ((awaiting "42", []), Raise (UnknownOperationError (VStr "status"))) ∧
  onMessage (env := quiet) "publish" false (awaiting "42", [])
    = _handle_publish (env := quiet) {[ "op" := VStr "publish" ]}
        (awaiting "42", []).
Proof.
  split; [| split].
  - exact (proj1 (onMessage_rejects_or_dispatches (env := quiet) "publish"
                    (awaiting "42") [])).
  - exact (proj2 (onMessage_rejects_or_dispatches (env := quiet) "status"
                    (awaiting "42") [])
             (VDict status_frame) status_frame (VStr "status") (KStr "status")
             eq_refl eq_refl eq_refl eq_refl).
  - exact (proj2 (onMessage_rejects_or_dispatches (env := quiet) "publish"
                    (awaiting "42") [])
             (VDict {[ "op" := VStr "publish" ]}) {[ "op" := VStr "publish" ]}
             (VStr "publish") (KStr "publish")
             eq_refl eq_refl eq_refl eq_refl).
Defined.

(** An [IOError] from the transport is logged and swallowed. *)
Lemma send_ros_message_swallows_StandardError_witness :
  send_ros_message (env := sample (Some an_IOError)) ∅ (awaiting "42", [])
    = ((awaiting "42", [SendMessage "{...}"; LogException an_IOError]), Ok ()).
Proof.
  exact (proj1 (proj2 (send_ros_message_swallows_StandardError
                         (env := sample (Some an_IOError))
                         (awaiting "42") [] ∅ "{...}" eq_refl))
           an_IOError eq_refl eq_refl).
Defined.

(** Against C7 read for every send failure: a transport that raises a bare
    [Exception] is not covered by [except StandardError]; the caller of
    [send_ros_message] gets the exception and nothing is logged. *)
Lemma send_ros_message_propagates_bare_Exception :
  @sendMessage (sample (Some bare_Exception)) "{...}" = Some bare_Exception ∧
  send_ros_message (env := sample (Some bare_Exception)) ∅ (awaiting "42", [])
    = ((awaiting "42", [SendMessage "{...}"]), Raise bare_Exception) ∧
  (send_ros_message (env := sample (Some bare_Exception)) ∅
     (awaiting "42", [])).2 ≠ Ok ().
Proof. repeat split; [reflexivity .. | discriminate]. Qed.

(** Against C8 read for every pair of callbacks: with two ready-callbacks
    that return [None], as functions without a [return] do, the second one
    is called with [None], not with the protocol the Deferred was fired
    with; and when the first callback raises, the second is not called at
    all. *)
Lemma second_ready_callback_misses_session :
  (two_callbacks_then_ready returns_None first_ready second_ready session).1.2
    = [Call first_ready session; Call second_ready VNone] ∧
  calls_of 3 (two_callbacks_then_ready returns_None
                first_ready second_ready session).1.2 = [session] ∧
  calls_of 4 (two_callbacks_then_ready returns_None
                first_ready second_ready session).1.2 = [VNone] ∧
  calls_of 4 (two_callbacks_then_ready returns_None
                first_ready second_ready session).1.2 ≠ [session] ∧
  (two_callbacks_then_ready first_raises first_ready second_ready session).1.2
    = [Call first_ready session] ∧
  calls_of 4 (two_callbacks_then_ready first_raises
                first_ready second_ready session).1.2 = [].
Proof. repeat split; try reflexivity; discriminate. Qed.

(** Id 42 is live and is registered again with other callbacks. *)
Lemma send_ros_service_request_overwrites_live_id_witness :
  send_ros_service_request (env := quiet) {[ "id" := VStr "42" ]}
      first_ready second_ready (awaiting "42", [])
    = ((set_pending <[KStr "42" := (first_ready, second_ready)]> (awaiting "42"),
        [SendMessage "{...}"]), Ok ()).
Proof.
  exact (proj1 (send_ros_service_request_overwrites_live_id (env := quiet)
                  (awaiting "42") [] {[ "id" := VStr "42" ]}
                  (VStr "42") (KStr "42") first_ready second_ready
                  (on_success, on_failure) "{...}"
                  eq_refl eq_refl eq_refl eq_refl)).
Defined.

(** The transport raises while a new request 43 is being sent. *)
Lemma send_ros_service_request_send_failure_keeps_entry_witness :
  send_ros_service_request (env := sample (Some an_IOError))
      {[ "id" := VStr "43" ]} first_ready second_ready (awaiting "42", [])
    = ((set_pending <[KStr "43" := (first_ready, second_ready)]> (awaiting "42"),
        [SendMessage "{...}"]), Raise an_IOError) ∧
  _pending_service_requests
      (set_pending <[KStr "43" := (first_ready, second_ready)]> (awaiting "42"))
    !! KStr "43" = Some (first_ready, second_ready).
Proof.
  exact (send_ros_service_request_send_failure_keeps_entry
           (env := sample (Some an_IOError))
           (awaiting "42") [] {[ "id" := VStr "43" ]}
           (VStr "43") (KStr "43") first_ready second_ready "{...}" an_IOError
           eq_refl eq_refl eq_refl eq_refl).
Defined.

(** * Further properties of the protocol *)

Section ProtocolMore.
Context `{env : Collaborators}.

Lemma set_pending_delete_insert self k entry :
  _pending_service_requests self !! k = None →
  set_pending (delete k) (set_pending <[k := entry]> self) = self.
Proof.
  intros Hnone. destruct self as [fac pending handlers]. simpl in Hnone.
  unfold set_pending. simpl. f_equal.
  rewrite delete_insert_eq. by apply delete_id.
Qed.

Lemma send_ros_service_request_sent
    self t service_request X k callback errback payload :
  service_request !! "id" = Some X →
  hash_key X = Some k →
  json_dumps service_request = Ok payload →
  sendMessage payload = None →
  send_ros_service_request service_request callback errback (self, t)
    = ((set_pending <[k := (callback, errback)]> self,
        t ++ [SendMessage payload]), Ok ()).
Proof.
  intros Hid Hk Hj Hs.
  unfold send_ros_service_request, self_sendMessage. eff_unfold.
  rewrite Hid. simpl. rewrite Hk. simpl. rewrite Hj. simpl. by rewrite Hs.
Qed.

(** X1. A handler registered for an operation that had none is the one a
    frame of that operation reaches: the registration returns normally and
    adds it, and dispatching an envelope with that [op] is one call of the
    handler with the message. *)
Theorem registered_handler_is_dispatched
    self t operation k h message :
  hash_key operation = Some k →
  _message_handlers self !! k = None →
  truthy h = true →
  message !! "op" = Some operation →
  let after := set_handlers <[k := registered h]> self in
  register_message_handlers operation h (self, t) = ((after, t), Ok ()) ∧
  dispatch message (after, t) = calling h (VDict message) after t ∧
  (dispatch message (after, t)).1.2 = t ++ [Call h (VDict message)].
Proof.
  intros Hk Hnone Hh Hop after.
  assert (Hd : dispatch message (after, t) = calling h (VDict message) after t).
  { rewrite (dispatch_runs_handler _ _ _ operation k (registered h));
      [| done | done | apply lookup_insert_eq | done].
    apply call_then_None. }
  split; [| split; [exact Hd | rewrite Hd; apply calling_trace]].
  unfold register_message_handlers. eff_unfold.
  rewrite Hk. simpl. by rewrite Hnone.
Qed.

(** X2. Registering an object that tests false ([None], say) succeeds and
    occupies the operation: frames of that operation still raise the
    no-handler error, nothing being called, and no other handler can be
    registered for it any more. *)
Theorem falsy_handler_blocks_operation
    self t operation k h message :
  hash_key operation = Some k →
  _message_handlers self !! k = None →
  truthy h = false →
  message !! "op" = Some operation →
  let after := set_handlers <[k := registered h]> self in
  register_message_handlers operation h (self, t) = ((after, t), Ok ()) ∧
  dispatch message (after, t)
    = ((after, t), Raise (UnknownOperationError operation)) ∧
  (∀ h', register_message_handlers operation h' (after, t)
         = ((after, t), Raise HandlerConflictError)).
Proof.
  intros Hk Hnone Hh Hop after. split; [| split].
  - unfold register_message_handlers. eff_unfold.
    rewrite Hk. simpl. by rewrite Hnone.
  - unfold dispatch. eff_unfold. rewrite Hop. simpl. rewrite Hk. simpl.
    rewrite lookup_insert_eq. simpl. by rewrite Hh.
  - intros h'. unfold register_message_handlers. eff_unfold.
    rewrite Hk. simpl. by rewrite lookup_insert_eq.
Qed.

(** X3. [register_message_handlers] calls nothing and touches neither the
    pending requests nor the factory reference.  It either raises and leaves
    the instance as it was, or returns normally having added exactly the one
    handler, for an operation that had none. *)
Theorem register_message_handlers_all_or_nothing self t operation h :
  let r := register_message_handlers operation h (self, t) in
  r.1.2 = t ∧
  _pending_service_requests r.1.1 = _pending_service_requests self ∧
  factory r.1.1 = factory self ∧
  ((∃ e, r.2 = Raise e ∧ r.1.1 = self) ∨
   (∃ k, r.2 = Ok () ∧ hash_key operation = Some k ∧
         _message_handlers self !! k = None ∧
         _message_handlers r.1.1
           = <[k := registered h]> (_message_handlers self))).
Proof.
  cbv zeta. unfold register_message_handlers. eff_unfold.
  destruct (hash_key operation) as [k|] eqn:Hk; simpl.
  - destruct (_message_handlers self !! k) eqn:Hl; simpl.
    + repeat split; try done. left. by eexists.
    + repeat split; try done. right. by exists k.
  - repeat split; try done. left. by eexists.
Qed.

(** X4. A request sent under a free id and then answered: the success
    callback is called once with the values, and the instance it runs
    against has the pending table it had before the request was sent. *)
Theorem request_then_response_restores_table
    self t service_request X k callback errback payload
    message values wrapped :
  service_request !! "id" = Some X →
  hash_key X = Some k →
  _pending_service_requests self !! k = None →
  json_dumps service_request = Ok payload →
  sendMessage payload = None →
  truthy callback = true →
  message !! "id" = Some X →
  result_is_False message = false →
  message !! "values" = Some values →
  ServiceRequest values = Ok wrapped →
  let sent :=
    send_ros_service_request service_request callback errback (self, t) in
  sent.2 = Ok () ∧
  _handle_service_response message sent.1
    = calling callback wrapped self (t ++ [SendMessage payload]).
Proof.
  intros Hid Hk Hfree Hj Hs Hcb Hmid Hres Hv Hw. cbv zeta.
  rewrite (send_ros_service_request_sent _ _ _ _ _ _ _ _ Hid Hk Hj Hs).
  split; [reflexivity |]. simpl.
  rewrite (handle_service_response_fires _ _ _ X k callback errback values);
    [| done | done | apply lookup_insert_eq | done].
  cbv zeta. unfold calling_with_request.
  by rewrite Hres, Hcb, Hw, set_pending_delete_insert.
Qed.

(** X5. Two requests sent under different ids are answered independently:
    a failure response for the second calls the second request's errback
    only, on an instance where the second id is free again and the first
    request is still pending with its own pair. *)
Theorem two_requests_are_answered_independently
    self t request1 X1 k1 callback1 errback1 payload1
    request2 X2 k2 callback2 errback2 payload2 message values :
  request1 !! "id" = Some X1 →
  hash_key X1 = Some k1 →
  json_dumps request1 = Ok payload1 →
  sendMessage payload1 = None →
  request2 !! "id" = Some X2 →
  hash_key X2 = Some k2 →
  json_dumps request2 = Ok payload2 →
  sendMessage payload2 = None →
  k1 ≠ k2 →
  truthy errback2 = true →
  message !! "id" = Some X2 →
  result_is_False message = true →
  message !! "values" = Some values →
  let sent :=
    (send_ros_service_request request1 callback1 errback1;;
     send_ros_service_request request2 callback2 errback2) (self, t) in
  ∃ self',
    sent.2 = Ok () ∧
    _handle_service_response message sent.1
      = calling errback2 values self'
          (t ++ [SendMessage payload1; SendMessage payload2]) ∧
    _pending_service_requests self' !! k1 = Some (callback1, errback1) ∧
    _pending_service_requests self' !! k2 = None.
Proof.
  intros Hid1 Hk1 Hj1 Hs1 Hid2 Hk2 Hj2 Hs2 Hne Heb Hmid Hres Hv. cbv zeta.
  exists (set_pending (delete k2)
            (set_pending <[k2 := (callback2, errback2)]>
               (set_pending <[k1 := (callback1, errback1)]> self))).
  assert (Hsent :
    (send_ros_service_request request1 callback1 errback1;;
     send_ros_service_request request2 callback2 errback2) (self, t)
    = ((set_pending <[k2 := (callback2, errback2)]>
          (set_pending <[k1 := (callback1, errback1)]> self),
        t ++ [SendMessage payload1; SendMessage payload2]), Ok ())).
  { unfold mbind at 1. unfold Eff_bind.
    rewrite (send_ros_service_request_sent _ _ _ _ _ _ _ _ Hid1 Hk1 Hj1 Hs1).
    rewrite (send_ros_service_request_sent _ _ _ _ _ _ _ _ Hid2 Hk2 Hj2 Hs2).
    by rewrite <- app_assoc. }
  rewrite Hsent. split; [reflexivity |]. split; [| split].
  - simpl.
    rewrite (handle_service_response_fires _ _ _ X2 k2 callback2 errback2
               values); [| done | done | apply lookup_insert_eq | done].
    cbv zeta. by rewrite Hres, Heb.
  - simpl. rewrite lookup_delete_ne by done.
    rewrite lookup_insert_ne by done. apply lookup_insert_eq.
  - simpl. apply lookup_delete_eq.
Qed.

(** X6. A request without an [id], or with an id that cannot be a dict key
    (a list, an object), is refused before anything happens: [KeyError] or
    [TypeError] is raised, no entry is stored and nothing is sent. *)
Theorem send_ros_service_request_without_usable_id
    self t service_request callback errback :
  match service_request !! "id" with
  | None => True
  | Some X => hash_key X = None
  end →
  send_ros_service_request service_request callback errback (self, t)
    = ((self, t),
       Raise match service_request !! "id" with
             | None => Exn KeyError (missing_key "id")
             | Some X => Exn TypeError (unhashable X)
             end).
Proof.
  intros Hbad. unfold send_ros_service_request. eff_unfold.
  destruct (service_request !! "id") as [X|]; simpl; [| reflexivity].
  by rewrite Hbad.
Qed.

(** X7. When the request cannot be serialized the exception of the encoder
    reaches the caller, whatever its class, and nothing is sent; the
    callback pair has been stored by then and stays in the table. *)
Theorem send_ros_service_request_encoding_failure_keeps_entry
    self t service_request X k callback errback e :
  service_request !! "id" = Some X →
  hash_key X = Some k →
  json_dumps service_request = Raise e →
  let self' := set_pending <[k := (callback, errback)]> self in
  send_ros_service_request service_request callback errback (self, t)
    = ((self', t), Raise e) ∧
  _pending_service_requests self' !! k = Some (callback, errback).
Proof.
  intros Hid Hk Hj self'. split; [| apply lookup_insert_eq].
  unfold send_ros_service_request. eff_unfold.
  rewrite Hid. simpl. rewrite Hk. simpl. by rewrite Hj.
Qed.

(** X8. [send_ros_message] never changes the protocol instance, sends at
    most one frame and logs at most once, and never lets an exception of
    class [StandardError] (or below it) reach its caller. *)
Theorem send_ros_message_keeps_instance self t message :
  let r := send_ros_message message (self, t) in
  r.1.1 = self ∧
  (∃ sent logged,
     r.1.2 = t ++ map SendMessage sent ++ map LogException logged ∧
     (List.length sent ≤ 1)%nat ∧ (List.length logged ≤ 1)%nat) ∧
  (∀ e, r.2 = Raise e → is_StandardError (exn_type e) = false).
Proof.
  cbv zeta. unfold send_ros_message, self_sendMessage. eff_unfold.
  destruct (json_dumps message) as [payload|e] eqn:Hj; simpl.
  - destruct (sendMessage payload) as [e|] eqn:Hs; simpl.
    + destruct (is_StandardError (exn_type e)) eqn:He; simpl.
      * split; [done |]. split; [| done].
        exists [payload], [e]. simpl. rewrite <- app_assoc.
        repeat split; (done || (simpl; lia)).
      * split; [done |]. split; [| by intros ? [= <-]].
        exists [payload], []. simpl. repeat split; (done || (simpl; lia)).
    + split; [done |]. split; [| done].
      exists [payload], []. simpl. repeat split; (done || (simpl; lia)).
  - destruct (is_StandardError (exn_type e)) eqn:He; simpl.
    + split; [done |]. split; [| done].
      exists [], [e]. simpl. repeat split; (done || (simpl; lia)).
    + split; [done |]. split; [| by intros ? [= <-]].
      exists [], []. simpl. rewrite app_nil_r. repeat split; (done || (simpl; lia)).
Qed.

(** X9. A message the encoder rejects with a [StandardError] is dropped:
    the error is logged, nothing is handed to the transport, and
    [send_ros_message] returns normally. *)
Theorem send_ros_message_drops_unserializable self t message e :
  json_dumps message = Raise e →
  is_StandardError (exn_type e) = true →
  send_ros_message message (self, t) = ((self, t ++ [LogException e]), Ok ()).
Proof.
  intros Hj He. unfold send_ros_message. eff_unfold.
  rewrite Hj. simpl. by rewrite He.
Qed.

(** X10. A response without [values] for a pending id consumes the entry
    all the same.  If the callback its [result] selects is not null, the
    handler raises [KeyError] before calling it, so the request is lost
    without either callback having run; if it is null, the handler returns
    normally. *)
Theorem response_without_values_consumes_entry
    self t message X k callback errback :
  message !! "id" = Some X →
  hash_key X = Some k →
  _pending_service_requests self !! k = Some (callback, errback) →
  message !! "values" = None →
  _handle_service_response message (self, t)
    = ((set_pending (delete k) self, t),
       if truthy (if result_is_False message then errback else callback)
       then Raise (Exn KeyError (missing_key "values"))
       else Ok ()).
Proof.
  intros Hid Hk Hp Hv.
  rewrite (handle_service_response_pending _ _ _ _ _ _ _ Hid Hk Hp).
  destruct (result_is_False message), (truthy errback), (truthy callback);
    eff_unfold; rewrite ?Hv; reflexivity.
Qed.

(** X11. A response without an [id], or with an id that cannot be a dict
    key, raises [KeyError] or [TypeError] and leaves the pending requests
    as they are; nothing is called. *)
Theorem response_without_usable_id self t message :
  match message !! "id" with
  | None => True
  | Some X => hash_key X = None
  end →
  _handle_service_response message (self, t)
    = ((self, t),
       Raise match message !! "id" with
             | None => Exn KeyError (missing_key "id")
             | Some X => Exn TypeError (unhashable X)
             end).
Proof.
  intros Hbad. unfold _handle_service_response. eff_unfold.
  destruct (message !! "id") as [X|]; simpl; [| reflexivity].
  by rewrite Hbad.
Qed.

(** X12. A publication cannot be delivered when the protocol has no
    factory yet or the envelope lacks [topic] or [msg]: the handler raises
    ([AttributeError] first, then [KeyError] for the first missing field)
    and the emitter is not called. *)
Theorem handle_publish_incomplete self t message :
  factory self = VNone ∨ message !! "topic" = None ∨ message !! "msg" = None →
  _handle_publish message (self, t)
    = ((self, t),
       Raise match factory self, message !! "topic" with
             | VNone, _ => Exn AttributeError (no_attribute "emit")
             | _, None => Exn KeyError (missing_key "topic")
             | _, Some _ => Exn KeyError (missing_key "msg")
             end).
Proof.
  intros Hbad. unfold _handle_publish. eff_unfold. simpl.
  destruct (factory self) eqn:Hf; try reflexivity;
    (destruct (message !! "topic") as [T|] eqn:HT; simpl; [| reflexivity]);
    (destruct (message !! "msg") as [m|] eqn:Hm; simpl; [| reflexivity]);
    by destruct Hbad as [? | [? | ?]].
Qed.

(** X13. [onMessage] is all or nothing up to the handler: for every frame,
    either it raises with the instance untouched and nothing called, or the
    frame is a text frame that decoded to an envelope whose [op] has a
    handler installed, and what happens is that handler run on the
    envelope. *)
Theorem onMessage_fails_clean_or_runs_handler payload isBinary self t :
  (∃ e, onMessage payload isBinary (self, t) = ((self, t), Raise e)) ∨
  (∃ v message op k h,
     isBinary = false ∧
     json_loads payload = Ok v ∧
     Message v = Ok message ∧
     message !! "op" = Some op ∧
     hash_key op = Some k ∧
     _message_handlers self !! k = Some h ∧
     handler_truthy h = true ∧
     onMessage payload isBinary (self, t) = run_handler h message (self, t)).
Proof.
  unfold onMessage, dispatch. eff_unfold.
  destruct isBinary; [left; by eexists |].
  destruct (json_loads payload) as [v|e] eqn:Hj; simpl; [| left; by eexists].
  destruct (Message v) as [message|e] eqn:Hm; simpl; [| left; by eexists].
  destruct (message !! "op") as [op|] eqn:Hop; simpl; [| left; by eexists].
  destruct (hash_key op) as [k|] eqn:Hk; simpl; [| left; by eexists].
  destruct (_message_handlers self !! k) as [h|] eqn:Hh; simpl;
    [| left; by eexists].
  destruct (handler_truthy h) eqn:Ht; [| left; by eexists].
  right. by exists v, message, op, k, h.
Qed.

(** X14. Only a [result] equal to [False] selects the failure callback: a
    [result] that merely tests false ([None], an empty string, list or
    object) is a success and goes to the success callback. *)
Theorem falsy_result_other_than_False_is_success
    self t message X k callback errback values wrapped r :
  message !! "id" = Some X →
  hash_key X = Some k →
  _pending_service_requests self !! k = Some (callback, errback) →
  truthy callback = true →
  message !! "values" = Some values →
  ServiceRequest values = Ok wrapped →
  message !! "result" = Some r →
  truthy r = false →
  r ≠ VBool false →
  r ≠ VInt 0 →
  _handle_service_response message (self, t)
    = calling callback wrapped (set_pending (delete k) self) t.
Proof.
  intros Hid Hk Hp Hcb Hv Hw Hr Hfalsy Hnf Hn0.
  rewrite (handle_service_response_fires _ _ _ _ _ _ _ _ Hid Hk Hp Hv).
  cbv zeta. unfold calling_with_request, result_is_False.
  rewrite Hr, Hcb, Hw.
  destruct r as [|b|z| | | |]; simpl in *; try reflexivity.
  - destruct b; [discriminate | contradiction].
  - destruct (z =? 0)%Z eqn:Hz; [| discriminate].
    apply Z.eqb_eq in Hz. by subst.
Qed.

End ProtocolMore.

(** * Further properties of the factory *)

Ltac factory_unfold :=
  unfold perform, on_ready, ready, onOpen, startedConnecting,
    clientConnectionFailed, on_ready_event, addCallback, Deferred_callback,
    Deferred_errback, _startRunCallbacks, _runCallbacks in *;
  eff_unfold; simpl in *.

Section FactoryMore.
Variable apply_callback : value → value → result value.

Local Abbreviation chain := (run_chain apply_callback).
Local Abbreviation step := (perform apply_callback).

Lemma count_app {A} (p : A → bool) (l1 l2 : list A) :
  count p (l1 ++ l2) = (count p l1 + count p l2)%nat.
Proof. induction l1 as [|x l1 IH]; simpl; [done | rewrite IH; lia]. Qed.

Lemma run_chain_Failure cbs e : chain cbs (Failure e) = (Failure e, []).
Proof. induction cbs as [|cb cbs IH]; simpl; [done | exact IH]. Qed.

Lemma run_chain_pass_through cbs v :
  (∀ cb, cb ∈ cbs → apply_callback cb v = Ok v) →
  chain cbs (Value v) = (Value v, map (λ cb, Call cb v) cbs).
Proof.
  induction cbs as [|cb cbs IH]; intros Hall; simpl; [done |].
  rewrite (Hall cb) by apply list_elem_of_here.
  rewrite IH; [done |]. intros cb' Hin. apply Hall. by apply list_elem_of_further.
Qed.

Lemma run_chain_callees_prefix cbs res :
  omap callee (chain cbs res).2 `prefix_of` cbs.
Proof.
  revert res. induction cbs as [|cb cbs IH]; intros res; simpl; [done |].
  destruct res as [v|e].
  - destruct (apply_callback cb v) as [v'|e'];
      match goal with |- context [chain cbs ?r] =>
        specialize (IH r); destruct (chain cbs r) end; simpl in *;
      by apply prefix_cons.
  - rewrite run_chain_Failure. simpl. apply prefix_nil.
Qed.

(** Registrations before the Deferred has fired only queue the callbacks. *)
Lemma run_registrations cbs queued t :
  run apply_callback (map do_on_ready cbs)
      ({| _on_ready_event :=
            {| called := false; current_result := None;
               callbacks := queued |} |}, t)
    = ({| _on_ready_event :=
            {| called := false; current_result := None;
               callbacks := queued ++ cbs |} |}, t).
Proof.
  revert queued. induction cbs as [|cb cbs IH]; intros queued; simpl.
  - by rewrite app_nil_r.
  - factory_unfold. rewrite IH. by rewrite <- app_assoc.
Qed.

Lemma run_app evs1 evs2 st :
  run apply_callback (evs1 ++ evs2) st
    = run apply_callback evs2 (run apply_callback evs1 st).
Proof. revert st. induction evs1 as [|ev evs1 IH]; intros st; simpl; [done | apply IH]. Qed.

(** X15. Callbacks written for the chain: when every registered callback
    returns the protocol it is given, any number of callbacks registered
    before the connection opens are each called once with the protocol, in
    registration order, when [ready] fires. *)
Theorem pass_through_callbacks_all_receive_protocol cbs proto :
  (∀ cb, cb ∈ cbs → apply_callback cb proto = Ok proto) →
  run apply_callback (map do_on_ready cbs ++ [do_ready proto])
      (RosBridgeClientFactory_init, [])
    = ({| _on_ready_event :=
            {| called := true; current_result := Some (Value proto);
               callbacks := [] |} |},
       map (λ cb, Call cb proto) cbs).
Proof.
  intros Hall. rewrite run_app.
  unfold RosBridgeClientFactory_init, Deferred_init.
  rewrite run_registrations. simpl. factory_unfold.
  by rewrite (run_chain_pass_through _ _ Hall).
Qed.

(** X16. Whatever the callbacks do, those called when [ready] fires are an
    initial segment of the registered ones, in registration order and each
    at most once: the chain never skips a callback and resumes, and never
    calls out of order. *)
Theorem ready_calls_initial_segment cbs proto :
  omap callee
    (run apply_callback (map do_on_ready cbs ++ [do_ready proto])
       (RosBridgeClientFactory_init, [])).2
  `prefix_of` cbs.
Proof.
  rewrite run_app. unfold RosBridgeClientFactory_init, Deferred_init.
  rewrite run_registrations. simpl. factory_unfold.
  pose proof (run_chain_callees_prefix cbs (Value proto)) as Hp.
  by destruct (chain cbs (Value proto)).
Qed.

Lemma served_sublist (t calls : list event) (queued extra regs : list value) :
  omap callee t ++ queued `sublist_of` regs →
  omap callee calls `prefix_of` queued ++ extra →
  omap callee (t ++ calls) `sublist_of` regs ++ extra.
Proof.
  intros Hsub [rest Hrest]. rewrite omap_app.
  trans (omap callee t ++ (queued ++ extra)).
  - apply sublist_app; [done |]. rewrite Hrest. by apply sublist_inserts_r.
  - rewrite app_assoc. by apply sublist_app.
Qed.

Lemma step_serves_in_order ev st regs :
  omap callee st.2 ++ callbacks (_on_ready_event st.1) `sublist_of` regs →
  omap callee (step ev st).1.2
    ++ callbacks (_on_ready_event (step ev st).1.1)
  `sublist_of` regs ++ registered_callbacks [ev].
Proof.
  destruct st as [[[c r cbs]] t]. simpl. intros Hsub.
  assert (Hkeep : ∀ log, omap callee log = [] →
            omap callee (t ++ log) ++ cbs `sublist_of` regs ++ []).
  { intros log Hlog. by rewrite omap_app, Hlog, !app_nil_r. }
  assert (Hserve : ∀ log calls extra,
            omap callee log = [] →
            omap callee calls `prefix_of` cbs ++ extra →
            omap callee ((t ++ log) ++ calls) ++ [] `sublist_of` regs ++ extra).
  { intros log calls extra Hlog Hp. rewrite app_nil_r.
    apply (served_sublist _ _ cbs); [| done].
    by rewrite omap_app, Hlog, app_nil_r. }
  destruct ev as [cb|proto|self ref|connector|connector reason];
    unfold registered_callbacks; simpl.
  - factory_unfold.
    destruct c; simpl;
      [destruct r as [res|]; simpl |];
      try (rewrite app_assoc; by apply sublist_app).
    pose proof (run_chain_callees_prefix (cbs ++ [cb]) res) as Hp.
    destruct (chain (cbs ++ [cb]) res) as [final calls]. simpl in *.
    specialize (Hserve [] calls [cb] eq_refl Hp).
    by rewrite (app_nil_r t) in Hserve.
  - factory_unfold. destruct c; simpl.
    + by rewrite app_nil_r.
    + pose proof (run_chain_callees_prefix cbs (Value proto)) as Hp.
      destruct (chain cbs (Value proto)) as [final calls]. simpl in *.
      rewrite <- (app_nil_r cbs) in Hp.
      specialize (Hserve [] calls [] eq_refl Hp).
      by rewrite (app_nil_r t) in Hserve.
  - factory_unfold.
    destruct (factory self); factory_unfold;
      try (by apply Hkeep);
      (destruct c; simpl; [by apply Hkeep |]);
      pose proof (run_chain_callees_prefix cbs (Value ref)) as Hp;
      destruct (chain cbs (Value ref)) as [final calls]; simpl in *;
      rewrite <- (app_nil_r cbs) in Hp;
      by apply Hserve.
  - factory_unfold. by apply Hkeep.
  - factory_unfold. destruct c; simpl.
    + rewrite <- app_assoc. by apply Hkeep.
    + rewrite run_chain_Failure. simpl.
      rewrite ?app_nil_r, <- ?app_assoc, omap_app. simpl.
      rewrite ?app_nil_r.
      trans (omap callee t ++ cbs); [by apply sublist_inserts_r | done].
Qed.

(** X17. Over any sequence of registrations, openings and failures on a
    new factory, the callbacks called so far, in the order they were
    called, followed by those still queued, are the registered callbacks in
    registration order with some of them left out.  So every call answers
    a registration of its own: none is served twice, none is called that
    was not registered, and none is called before one registered
    earlier. *)
Theorem callbacks_are_called_at_most_once evs :
  let st := run apply_callback evs (RosBridgeClientFactory_init, []) in
  omap callee st.2 ++ callbacks (_on_ready_event st.1)
  `sublist_of` registered_callbacks evs.
Proof.
  cbv zeta.
  assert (Hgen : ∀ evs st regs,
    omap callee st.2 ++ callbacks (_on_ready_event st.1) `sublist_of` regs →
    omap callee (run apply_callback evs st).2
      ++ callbacks (_on_ready_event (run apply_callback evs st).1)
    `sublist_of` regs ++ registered_callbacks evs).
  { clear evs. induction evs as [|ev evs IH]; intros st regs Hsub.
    - simpl. unfold registered_callbacks. simpl. by rewrite app_nil_r.
    - change (run apply_callback (ev :: evs) st)
        with (run apply_callback evs (step ev st).1).
      pose proof (step_serves_in_order ev st regs Hsub) as Hstep.
      specialize (IH _ _ Hstep).
      assert (Hregs : regs ++ registered_callbacks (ev :: evs)
                = (regs ++ registered_callbacks [ev])
                  ++ registered_callbacks evs).
      { rewrite <- app_assoc. f_equal. unfold registered_callbacks. simpl.
        by destruct ev. }
      rewrite Hregs. exact IH. }
  apply (Hgen evs (RosBridgeClientFactory_init, []) []). simpl. constructor.
Qed.

Lemma step_called_stays ev st :
  called (_on_ready_event st.1) = true →
  called (_on_ready_event (step ev st).1.1) = true.
Proof.
  destruct st as [[[c r cbs]] t]. simpl. intros ->.
  destruct ev as [cb|proto|self ref|connector|connector reason];
    factory_unfold;
    try (destruct (factory self); factory_unfold);
    try (destruct r as [res|]; simpl);
    try match goal with |- context [chain ?l ?x] =>
          destruct (chain l x) as [final calls]
        end;
    reflexivity.
Qed.

Lemma step_fires_once ev st :
  fires ev = true →
  is_Ok (step ev st).2 = true →
  called (_on_ready_event st.1) = false ∧
  called (_on_ready_event (step ev st).1.1) = true.
Proof.
  destruct st as [[[c r cbs]] t]. simpl.
  destruct ev as [cb|proto|self ref|connector|connector reason];
    try discriminate; intros _;
    factory_unfold;
    try (destruct (factory self); factory_unfold);
    destruct c; simpl; try discriminate;
    rewrite ?run_chain_Failure;
    try match goal with |- context [chain ?l ?x] =>
          destruct (chain l x) as [final calls]
        end;
    done.
Qed.

(** X18. Over any sequence of events on a new factory, at most one of the
    events that fire the readiness Deferred ([ready], a protocol's [onOpen],
    [clientConnectionFailed]) returns normally; every other one raises.  A
    factory signals readiness or failure for one connection attempt
    only. *)
Theorem readiness_fires_at_most_once evs :
  (fired evs (outcomes apply_callback evs (RosBridgeClientFactory_init, []))
   ≤ 1)%nat.
Proof.
  assert (Hgen : ∀ evs st,
    (fired evs (outcomes apply_callback evs st)
     ≤ if called (_on_ready_event st.1) then 0 else 1)%nat).
  { clear evs. induction evs as [|ev evs IH]; intros st; simpl.
    - destruct (called _); lia.
    - specialize (IH (step ev st).1).
      destruct (fires ev && is_Ok (step ev st).2) eqn:Hf.
      + apply andb_true_iff in Hf as [Hf Hok].
        destruct (step_fires_once ev st Hf Hok) as [Hbefore Hafter].
        rewrite Hbefore. rewrite Hafter in IH. lia.
      + destruct (called (_on_ready_event st.1)) eqn:Hc.
        * rewrite (step_called_stays ev st Hc) in IH. lia.
        * destruct (called (_on_ready_event (step ev st).1.1)); lia. }
  apply (Hgen evs (RosBridgeClientFactory_init, [])).
Qed.

Lemma step_failed_for_good ev st :
  failed_for_good st.1 →
  failed_for_good (step ev st).1.1 ∧
  count is_Call (step ev st).1.2 = count is_Call st.2.
Proof.
  destruct st as [[[c r cbs]] t]. unfold failed_for_good. simpl.
  intros (-> & -> & e & ->).
  destruct ev as [cb|proto|self ref|connector|connector reason];
    factory_unfold;
    try (destruct (factory self); factory_unfold);
    rewrite ?count_app; simpl;
    (split; [by eauto | lia]).
Qed.

Lemma run_failed_for_good evs st :
  failed_for_good st.1 →
  count is_Call (run apply_callback evs st).2 = count is_Call st.2.
Proof.
  revert st. induction evs as [|ev evs IH]; intros st Hf; simpl; [done |].
  destruct (step_failed_for_good ev st Hf) as [Hf' Hc].
  by rewrite (IH _ Hf').
Qed.

Lemma run_before_firing evs st :
  forallb (λ ev, negb (fires ev)) evs = true →
  called (_on_ready_event st.1) = false →
  current_result (_on_ready_event st.1) = None →
  called (_on_ready_event (run apply_callback evs st).1) = false ∧
  current_result (_on_ready_event (run apply_callback evs st).1) = None ∧
  count is_Call (run apply_callback evs st).2 = count is_Call st.2.
Proof.
  revert st. induction evs as [|ev evs IH]; intros st Hall Hc Hr; simpl;
    [done |].
  simpl in Hall. apply andb_true_iff in Hall as [Hev Hall].
  destruct st as [[[c r cbs]] t]. simpl in Hc, Hr. subst c r.
  destruct ev as [cb|proto|self ref|connector|connector reason];
    try discriminate.
  - destruct (IH (step (do_on_ready cb)
                    ({| _on_ready_event :=
                          {| called := false; current_result := None;
                             callbacks := cbs |} |}, t)).1 Hall)
      as (H1 & H2 & H3); [done | done |].
    by rewrite H1, H2, H3.
  - destruct (IH (step (do_startedConnecting connector)
                    ({| _on_ready_event :=
                          {| called := false; current_result := None;
                             callbacks := cbs |} |}, t)).1 Hall)
      as (H1 & H2 & H3); [done | done |].
    rewrite H1, H2, H3. factory_unfold. rewrite count_app. simpl.
    repeat split; lia.
Qed.

(** X19. A failed first attempt is final for readiness.  If the first
    event to fire the Deferred of a new factory is [clientConnectionFailed],
    no ready-callback is ever called: neither those registered before the
    failure nor any registered later, whatever connections open
    afterwards. *)
Theorem failed_attempt_silences_callbacks
    before connector reason after :
  forallb (λ ev, negb (fires ev)) before = true →
  count is_Call
    (run apply_callback
       (before ++ do_clientConnectionFailed connector reason :: after)
       (RosBridgeClientFactory_init, [])).2 = 0%nat.
Proof.
  intros Hbefore. rewrite run_app. simpl.
  destruct (run_before_firing before (RosBridgeClientFactory_init, [])
              Hbefore eq_refl eq_refl) as (Hc & Hr & Hn).
  destruct (run apply_callback before (RosBridgeClientFactory_init, []))
    as [[[c r cbs]] t]. simpl in Hc, Hr, Hn. subst c r.
  rewrite run_failed_for_good.
  - factory_unfold. rewrite run_chain_Failure. simpl.
    rewrite !count_app. simpl. lia.
  - factory_unfold. rewrite run_chain_Failure. simpl.
    unfold failed_for_good. simpl. by eauto.
Qed.

(** X20. A callback registered after the Deferred has fired is served at
    once and is not queued: it is called with the value the chain ended on
    (which then becomes what it returns), or, when the chain ended on a
    failure, it is dropped without being called. *)
Theorem late_registration_is_served_at_once cb res t :
  let fired_factory :=
    {| _on_ready_event :=
         {| called := true; current_result := Some res; callbacks := [] |} |} in
  on_ready apply_callback cb (fired_factory, t)
    = (({| _on_ready_event :=
             {| called := true;
                current_result :=
                  Some match res with
                       | Value v =>
                           match apply_callback cb v with
                           | Ok returned => Value returned
                           | Raise e => Failure e
                           end
                       | Failure e => Failure e
                       end;
                callbacks := [] |} |},
        t ++ match res with
             | Value v => [Call cb v]
             | Failure _ => []
             end), Ok ()).
Proof.
  cbv zeta. factory_unfold.
  destruct res as [v|e]; simpl; [| reflexivity].
  by destruct (apply_callback cb v).
Qed.

End FactoryMore.

(** * The further properties on concrete inputs *)

Lemma registered_handler_is_dispatched_witness :
  register_message_handlers (VStr "status") a_handler (awaiting "42", [])
    = ((set_handlers <[KStr "status" := registered a_handler]> (awaiting "42"),
        []), Ok ()) ∧
  dispatch (env := quiet) status_frame
      (set_handlers <[KStr "status" := registered a_handler]> (awaiting "42"),
       [])
    = calling (env := quiet) a_handler (VDict status_frame)
        (set_handlers <[KStr "status" := registered a_handler]> (awaiting "42"))
        [] ∧
  (dispatch (env := quiet) status_frame
     (set_handlers <[KStr "status" := registered a_handler]> (awaiting "42"),
      [])).1.2
    = [Call a_handler (VDict status_frame)].
Proof.
  exact (registered_handler_is_dispatched (env := quiet) (awaiting "42") []
           (VStr "status") (KStr "status") a_handler status_frame
           eq_refl eq_refl eq_refl eq_refl).
Defined.

Lemma falsy_handler_blocks_operation_witness :
  register_message_handlers (VStr "status") VNone (awaiting "42", [])
    = ((set_handlers <[KStr "status" := registered VNone]> (awaiting "42"), []),
       Ok ()) ∧
  dispatch (env := quiet) status_frame
      (set_handlers <[KStr "status" := registered VNone]> (awaiting "42"), [])
    = ((set_handlers <[KStr "status" := registered VNone]> (awaiting "42"), []),
       Raise (UnknownOperationError (VStr "status"))) ∧
  (∀ h', register_message_handlers (VStr "status") h'
           (set_handlers <[KStr "status" := registered VNone]> (awaiting "42"),
            [])
         = ((set_handlers <[KStr "status" := registered VNone]> (awaiting "42"),
             []), Raise HandlerConflictError)).
Proof.
  exact (falsy_handler_blocks_operation (env := quiet) (awaiting "42") []
           (VStr "status") (KStr "status") VNone status_frame
           eq_refl eq_refl eq_refl eq_refl).
Defined.

Lemma request_then_response_restores_table_witness :
  (send_ros_service_request (env := quiet) request_43 first_ready second_ready
     (awaiting "42", [])).2 = Ok () ∧
  _handle_service_response (env := quiet) success_43
      (send_ros_service_request (env := quiet) request_43
         first_ready second_ready (awaiting "42", [])).1
    = calling (env := quiet) first_ready x_is_1 (awaiting "42")
        [SendMessage "{...}"].
Proof.
  exact (request_then_response_restores_table (env := quiet)
           (awaiting "42") [] request_43 (VStr "43") (KStr "43")
           first_ready second_ready "{...}" success_43 x_is_1 x_is_1
           eq_refl eq_refl eq_refl eq_refl eq_refl eq_refl eq_refl eq_refl
           eq_refl eq_refl).
Defined.

Lemma two_requests_are_answered_independently_witness :
  ∃ self',
    ((send_ros_service_request (env := quiet) request_43 on_success on_failure;;
      send_ros_service_request (env := quiet) request_44
        first_ready second_ready) (RosBridgeProtocol_init, [])).2 = Ok () ∧
    _handle_service_response (env := quiet) failure_44
        ((send_ros_service_request (env := quiet) request_43
            on_success on_failure;;
          send_ros_service_request (env := quiet) request_44
            first_ready second_ready) (RosBridgeProtocol_init, [])).1
      = calling (env := quiet) second_ready (VStr "boom") self'
          [SendMessage "{...}"; SendMessage "{...}"] ∧
    _pending_service_requests self' !! KStr "43"
      = Some (on_success, on_failure) ∧
    _pending_service_requests self' !! KStr "44" = None.
Proof.
  refine (two_requests_are_answered_independently (env := quiet)
            RosBridgeProtocol_init []
            request_43 (VStr "43") (KStr "43") on_success on_failure "{...}"
            request_44 (VStr "44") (KStr "44") first_ready second_ready "{...}"
            failure_44 (VStr "boom")
            eq_refl eq_refl eq_refl eq_refl eq_refl eq_refl eq_refl eq_refl
            _ eq_refl eq_refl eq_refl eq_refl).
  discriminate.
Defined.

Lemma send_ros_service_request_without_usable_id_witness :
  send_ros_service_request (env := quiet) (request (VList []) ∅)
      first_ready second_ready (awaiting "42", [])
    = ((awaiting "42", []), Raise (Exn TypeError (unhashable (VList [])))).
Proof.
  exact (send_ros_service_request_without_usable_id (env := quiet)
           (awaiting "42") [] (request (VList []) ∅) first_ready second_ready
           eq_refl).
Defined.

Lemma send_ros_service_request_encoding_failure_keeps_entry_witness :
  send_ros_service_request (env := unserializable) request_43
      first_ready second_ready (awaiting "42", [])
    = ((set_pending <[KStr "43" := (first_ready, second_ready)]> (awaiting "42"),
        []), Raise not_serializable) ∧
  _pending_service_requests
      (set_pending <[KStr "43" := (first_ready, second_ready)]> (awaiting "42"))
    !! KStr "43" = Some (first_ready, second_ready).
Proof.
  exact (send_ros_service_request_encoding_failure_keeps_entry
           (env := unserializable) (awaiting "42") [] request_43
           (VStr "43") (KStr "43") first_ready second_ready not_serializable
           eq_refl eq_refl eq_refl).
Defined.

Lemma send_ros_message_drops_unserializable_witness :
  send_ros_message (env := unserializable) scan (awaiting "42", [])
    = ((awaiting "42", [LogException not_serializable]), Ok ()).
Proof.
  exact (send_ros_message_drops_unserializable (env := unserializable)
           (awaiting "42") [] scan not_serializable eq_refl eq_refl).
Defined.

Lemma response_without_values_consumes_entry_witness :
  _handle_service_response (env := quiet) (response "42" ∅) (awaiting "42", [])
    = ((set_pending (delete (KStr "42")) (awaiting "42"), []),
       Raise (Exn KeyError (missing_key "values"))).
Proof.
  exact (response_without_values_consumes_entry (env := quiet)
           (awaiting "42") [] (response "42" ∅) (VStr "42") (KStr "42")
           on_success on_failure eq_refl eq_refl eq_refl eq_refl).
Defined.

Lemma response_without_usable_id_witness :
  _handle_service_response (env := quiet)
      {[ "op" := VStr "service_response" ]} (awaiting "42", [])
    = ((awaiting "42", []), Raise (Exn KeyError (missing_key "id"))).
Proof.
  exact (response_without_usable_id (env := quiet) (awaiting "42") []
           {[ "op" := VStr "service_response" ]} I).
Defined.

Lemma handle_publish_incomplete_witness :
  _handle_publish (env := quiet) scan (RosBridgeProtocol_init, [])
    = ((RosBridgeProtocol_init, []),
       Raise (Exn AttributeError (no_attribute "emit"))).
Proof.
  exact (handle_publish_incomplete (env := quiet) RosBridgeProtocol_init []
           scan (or_introl eq_refl)).
Defined.

Lemma falsy_result_other_than_False_is_success_witness :
  _handle_service_response (env := quiet) null_result_42 (awaiting "42", [])
    = calling (env := quiet) on_success x_is_1
        (set_pending (delete (KStr "42")) (awaiting "42")) [].
Proof.
  refine (falsy_result_other_than_False_is_success (env := quiet)
            (awaiting "42") [] null_result_42 (VStr "42") (KStr "42")
            on_success on_failure x_is_1 x_is_1 VNone
            eq_refl eq_refl eq_refl eq_refl eq_refl eq_refl eq_refl eq_refl
            _ _); discriminate.
Defined.

Lemma pass_through_callbacks_all_receive_protocol_witness :
  run returns_argument
      (map do_on_ready [first_ready; second_ready] ++ [do_ready session])
      (RosBridgeClientFactory_init, [])
    = ({| _on_ready_event :=
            {| called := true; current_result := Some (Value session);
               callbacks := [] |} |},
       map (λ cb, Call cb session) [first_ready; second_ready]).
Proof.
  exact (pass_through_callbacks_all_receive_protocol returns_argument
           [first_ready; second_ready] session (λ _ _, eq_refl)).
Defined.

Lemma failed_attempt_silences_callbacks_witness :
  count is_Call
    (run returns_None
       ([do_on_ready first_ready; do_startedConnecting a_connector]
        ++ do_clientConnectionFailed a_connector connection_refused
           :: [do_on_ready second_ready; do_onOpen (awaiting "42") session])
       (RosBridgeClientFactory_init, [])).2 = 0%nat.
Proof.
  exact (failed_attempt_silences_callbacks returns_None
           [do_on_ready first_ready; do_startedConnecting a_connector]
           a_connector connection_refused
           [do_on_ready second_ready; do_onOpen (awaiting "42") session]
           eq_refl).
Defined.
